(** * RuralEdu authentication routes: a shallow embedding

    The development follows the three route handlers of the Next.js
    application and the helper library they share:

    - [frontend/src/app/api/auth/signup/route.ts]  ([Signup.POST]),
    - [frontend/src/app/api/auth/login/route.ts]   ([LoginHead.POST] and
      [LoginTheirs.POST], the two sides of the merge conflict the file
      still carries),
    - [frontend/src/lib/auth.ts]                   ([verifyToken],
      [generateToken]),
    - the [GET] handler of [/api/auth/me]          ([Me.GET]).

    JavaScript values are modelled by the inductive [value]; [undefined]
    is the [None] of [option value].  Handlers run in a monad that threads
    the server's state (the user table, the clock, the random source and
    the error log) and carries thrown exceptions, so that [try]/[catch] is
    an ordinary combinator. *)

From Stdlib Require Import String Ascii List ZArith Bool Lia DecimalString.
Import ListNotations.
Local Open Scope string_scope.
Local Open Scope Z_scope.
Set Warnings "-register-all".

(** String equality test, [a === b] on two strings. *)
Infix "==" := String.eqb (at level 70, no associativity).

(* ================================================================== *)
(** ** JavaScript values *)
(* ================================================================== *)

(** The values that flow through the handlers: what [JSON.parse] can
    produce, plus [Date] objects (which [JSON.stringify] renders as ISO
    strings).  Numbers are kept as integers; the handlers only ever test a
    number for truthiness or reject it for not being a string.  An object
    is its list of own properties in insertion order, with distinct keys. *)
Inductive value : Type :=
| VNull
| VBool (b : bool)
| VNum (n : Z)
| VStr (s : string)
| VDate (ms : Z)
| VArr (xs : list value)
| VObj (fields : list (string * value)).

(** [!!v]: [undefined], [null], [false], [0] and [""] are falsy. *)
Definition truthy (v : option value) : bool :=
  match v with
  | None => false
  | Some VNull => false
  | Some (VBool b) => b
  | Some (VNum n) => negb (n =? 0)
  | Some (VStr s) => negb (s == "")
  | Some (VDate _) | Some (VArr _) | Some (VObj _) => true
  end.

(** [typeof v], as it appears in library error messages. *)
Definition typeof (v : option value) : string :=
  match v with
  | None => "undefined"
  | Some (VBool _) => "boolean"
  | Some (VNum _) => "number"
  | Some (VStr _) => "string"
  | Some VNull | Some (VDate _) | Some (VArr _) | Some (VObj _) => "object"
  end.

Fixpoint assoc (k : string) (fields : list (string * value)) : option value :=
  match fields with
  | [] => None
  | (k', v) :: rest => if k' == k then Some v else assoc k rest
  end.

(** Property read [v.k] on a value that is not [null]: own properties of
    objects; none of the keys used here exists on strings, numbers,
    booleans, dates or arrays. *)
Definition get (v : value) (k : string) : option value :=
  match v with
  | VObj fields => assoc k fields
  | _ => None
  end.

(** The rest pattern [const { k: _, ...rest } = o]. *)
Definition omit (k : string) (fields : list (string * value))
  : list (string * value) :=
  filter (fun kv => negb (fst kv == k)) fields.

(** An object literal as [JSON.stringify] sees it: a property whose value
    is [undefined] is left out. *)
Fixpoint obj_fields (l : list (string * option value))
  : list (string * value) :=
  match l with
  | [] => []
  | (k, Some v) :: rest => (k, v) :: obj_fields rest
  | (_, None) :: rest => obj_fields rest
  end.

Definition obj (l : list (string * option value)) : value :=
  VObj (obj_fields l).

(** Does the property name [k] occur anywhere inside [v]? *)
Fixpoint mentions_key (k : string) (v : value) : bool :=
  match v with
  | VArr xs => existsb (mentions_key k) xs
  | VObj fields =>
      existsb (fun kv => match kv with
                         | (k', v') => (k' == k) || mentions_key k v'
                         end) fields
  | _ => false
  end.

(** Does the string [s] occur as a string value anywhere inside [v]? *)
Fixpoint mentions_text (s : string) (v : value) : bool :=
  match v with
  | VStr s' => s' == s
  | VArr xs => existsb (mentions_text s) xs
  | VObj fields =>
      existsb (fun kv => match kv with
                         | (_, v') => mentions_text s v'
                         end) fields
  | _ => false
  end.

(** [s.startsWith(p)] and [s.substring(n)]. *)
Definition startsWith (s p : string) : bool := String.prefix p s.

Definition substring_from (n : nat) (s : string) : string :=
  String.substring n (String.length s - n) s.

(** A value as error messages print it. *)
Definition dquote : string := String (Ascii.ascii_of_nat 34) EmptyString.

Definition quoted (s : string) : string := dquote ++ s ++ dquote.

Definition show_Z (n : Z) : string := NilZero.string_of_int (Z.to_int n).

Fixpoint inspect (v : value) : string :=
  match v with
  | VNull => "null"
  | VBool b => if b then "true" else "false"
  | VNum n => show_Z n
  | VStr s => quoted s
  | VDate ms => "new Date(" ++ show_Z ms ++ ")"
  | VArr xs => "[" ++ String.concat ", " (map inspect xs) ++ "]"
  | VObj fields =>
      "{ "
        ++ String.concat ", "
             (map (fun kv => match kv with
                             | (k, v') => k ++ ": " ++ inspect v'
                             end) fields)
        ++ " }"
  end.

Definition inspect_opt (v : option value) : string :=
  match v with
  | Some v => inspect v
  | None => "undefined"
  end.

(* ================================================================== *)
(** ** Data model *)
(* ================================================================== *)

(** Modelled from the spec: the Prisma schema ([prisma/schema.prisma]) is
    not among the sources; the columns are those of spec section 3 and of
    the setup checklist (id, email, fullName, password, role, dateOfBirth,
    createdAt, updatedAt).  The column [password] holds the bcrypt hash
    (the spec's [passwordHash]).  Dates are epoch milliseconds. *)
Record User : Type := mkUser {
  id : string;
  email : string;
  fullName : option string;
  password : string;
  role : string;
  dateOfBirth : option Z;
  createdAt : Z;
  updatedAt : Z
}.

Definition opt_str (s : option string) : value :=
  match s with Some s => VStr s | None => VNull end.

Definition opt_date (d : option Z) : value :=
  match d with Some d => VDate d | None => VNull end.

(** The row object Prisma hands back for a [User]. *)
Definition user_fields (u : User) : list (string * value) :=
  [ ("id", VStr (id u));
    ("email", VStr (email u));
    ("fullName", opt_str (fullName u));
    ("password", VStr (password u));
    ("role", VStr (role u));
    ("dateOfBirth", opt_date (dateOfBirth u));
    ("createdAt", VDate (createdAt u));
    ("updatedAt", VDate (updatedAt u)) ].

(** [const { password: _, ...userWithoutPassword } = user]. *)
Definition userWithoutPassword (u : User) : value :=
  VObj (omit "password" (user_fields u)).

(** The projection [select: { id, fullName, email, role, createdAt }]. *)
Definition select_me (u : User) : value :=
  VObj [ ("id", VStr (id u));
         ("fullName", opt_str (fullName u));
         ("email", VStr (email u));
         ("role", VStr (role u));
         ("createdAt", VDate (createdAt u)) ].

(** What a thrown error is to the handlers: its rendering [String(error)]. *)
Definition Exn : Type := string.

(** The three queries the handlers send to the persistence layer. *)
Inductive PrismaOp : Type :=
| FindUniqueByEmail
| FindUniqueById
| Create.

(** Server-side state a handler can observe or change.  [fault] says which
    queries the database currently rejects, and with what error; [rng] is
    the random source bcrypt salts and fresh ids are drawn from; [log] is
    what [console.error] has written. *)
Record World : Type := mkWorld {
  users : list User;
  fault : PrismaOp -> option Exn;
  now : Z;
  rng : nat -> string;
  rng_pos : nat;
  log : list string
}.

(** [process.env]. *)
Record ProcessEnv : Type := mkEnv {
  env_JWT_SECRET : option string;
  env_NODE_ENV : option string
}.

(** An incoming request.  Header names are lower-case, as the [Headers]
    class normalises them.  [req_body = None] is a body that is not JSON. *)
Record Request : Type := mkRequest {
  req_headers : list (string * string);
  req_cookies : list (string * string);
  req_body : option value
}.

Record Response : Type := mkResponse {
  status : Z;
  body : value;
  set_cookies : list (string * string)
}.

(** [NextResponse.json(data, { status })]. *)
Definition NextResponse_json (data : value) (st : Z) : Response :=
  mkResponse st data [].

Fixpoint headers_get (name : string) (hs : list (string * string))
  : option string :=
  match hs with
  | [] => None
  | (n, v) :: rest => if n == name then Some v else headers_get name rest
  end.

(* ================================================================== *)
(** ** The handler monad: state and exceptions *)
(* ================================================================== *)

Definition M (A : Type) : Type := World -> (Exn + A) * World.

Definition ret {A} (a : A) : M A := fun w => (inr a, w).

Definition throw {A} (e : Exn) : M A := fun w => (inl e, w).

Definition bind {A B} (c : M A) (k : A -> M B) : M B :=
  fun w => match c w with
           | (inr a, w') => k a w'
           | (inl e, w') => (inl e, w')
           end.

(** [try { c } catch (error) { h error }]. *)
Definition try_catch {A} (c : M A) (h : Exn -> M A) : M A :=
  fun w => match c w with
           | (inr a, w') => (inr a, w')
           | (inl e, w') => h e w'
           end.

Declare Scope handler_scope.
Delimit Scope handler_scope with handler.
Notation "x <- c ;; k" := (bind c (fun x => k))
  (at level 100, c at next level, right associativity) : handler_scope.
Notation "c ;;; k" := (bind c (fun _ => k))
  (at level 100, right associativity) : handler_scope.
Local Open Scope handler_scope.

Definition get_world : M World := fun w => (inr w, w).

(** [console.error(tag, error)]. *)
Definition console_error (tag : string) (e : Exn) : M unit :=
  fun w => (inr tt,
            mkWorld (users w) (fault w) (now w) (rng w) (rng_pos w)
                    (log w ++ [tag ++ " " ++ e])).

(** Draw the next string from the random source. *)
Definition draw : M string :=
  fun w => (inr (rng w (rng_pos w)),
            mkWorld (users w) (fault w) (now w) (rng w) (S (rng_pos w))
                    (log w)).


(** [await request.json()]: rejects when the body is not JSON. *)
Definition request_json (req : Request) : M value :=
  match req_body req with
  | Some v => ret v
  | None => throw "SyntaxError: Unexpected token in JSON"
  end.

(** [const { email, ... } = body]: destructuring [null] throws; any other
    value can be destructured (absent properties read as [undefined]). *)
Definition destructure (b : value) : M value :=
  match b with
  | VNull =>
      throw "TypeError: Cannot destructure property 'email' of 'body' as it is null."
  | _ => ret b
  end.

(* ================================================================== *)
(** ** External collaborators *)
(* ================================================================== *)

(** The errors [jwt.verify] throws. *)
Inductive JwtError : Type :=
| TokenExpiredError
| JsonWebTokenError (message : string)
| NotBeforeError.

Definition String_of_JwtError (e : JwtError) : Exn :=
  match e with
  | TokenExpiredError => "TokenExpiredError: jwt expired"
  | JsonWebTokenError m => "JsonWebTokenError: " ++ m
  | NotBeforeError => "NotBeforeError: jwt not active"
  end.

(** The result of [new Date(v)]. *)
Inductive JsDate : Type :=
| ValidDate (ms : Z)
| InvalidDate.

(** Library functions the routes call and whose code is not part of the
    repository.  They are left abstract; the handlers are defined, and the
    theorems proved, for every implementation.

    - [bcrypt_hash data rounds salt] is [bcrypt.hash(data, rounds)] when
      the generated salt is [salt];
    - [bcrypt_compare data hash] is [bcrypt.compare(data, hash)];
    - [jwt_sign payload secret expiresIn t] is [jwt.sign] at clock [t];
    - [jwt_verify token secret t] is [jwt.verify] at clock [t], either the
      decoded payload or the error thrown;
    - [is_email s] is zod's [string().email()] test;
    - [new_Date v] is the [Date] constructor;
    - [session_login user t] is the call [login(userWithoutPassword)] of
      the second variant of the login route, which imports [login] from
      [@/lib/auth]: the cookies it sets, or the error it throws.
      [lib/auth.ts] as it stands exports no [login], so there the call
      throws; the parameter covers that and any helper put in its
      place. *)
Class Collaborators : Type := {
  bcrypt_hash : string -> Z -> string -> string;
  bcrypt_compare : string -> string -> bool;
  jwt_sign : value -> string -> string -> Z -> string;
  jwt_verify : string -> string -> Z -> JwtError + value;
  is_email : string -> bool;
  new_Date : value -> JsDate;
  session_login : value -> Z -> Exn + list (string * string)
}.

(* ================================================================== *)
(** ** The persistence layer: [prisma.user] *)
(* ================================================================== *)

(** The Prisma client is a library; what is modelled is its observable
    behaviour on the three queries the routes send: arguments are checked
    against the column types before the database is contacted, a database
    failure rejects the query with the database's error, and [create]
    enforces the primary key and the unique index on [email]. *)
Module Prisma.

(** A validation error prints the call it rejects, arguments included:
    the text is the part before the arguments, the arguments, and the
    reason. *)
Definition validation_error (op args : string) : Exn :=
  "PrismaClientValidationError: Invalid `prisma.user." ++ op
    ++ "()` invocation: " ++ args.

Definition where_args (field : string) (v : option value) : string :=
  "{ where: { " ++ field ++ ": " ++ inspect_opt v
    ++ " } } Invalid value provided for argument `" ++ field ++ "`.".

Definition unique_error (field : string) : Exn :=
  "PrismaClientKnownRequestError: Unique constraint failed on the fields: (`"
    ++ field ++ "`)".

Definition by_email (e : string) (u : User) : bool := email u == e.
Definition by_id (i : string) (u : User) : bool := id u == i.

(** [prisma.user.findUnique({ where: { email } })].  The argument must
    be a string; the query fails when the database does. *)
Definition findUnique_email (e : option value) : M (option User) :=
  match e with
  | Some (VStr e) =>
      fun w => match fault w FindUniqueByEmail with
               | Some err => (inl err, w)
               | None => (inr (find (by_email e) (users w)), w)
               end
  | _ => throw (validation_error "findUnique" (where_args "email" e))
  end.

(** [prisma.user.findUnique({ where: { id }, select: {...} })]. *)
Definition findUnique_id_select (i : option value) : M (option value) :=
  match i with
  | Some (VStr i) =>
      fun w => match fault w FindUniqueById with
               | Some err => (inl err, w)
               | None =>
                   (inr (option_map select_me (find (by_id i) (users w))), w)
               end
  | _ => throw (validation_error "findUnique" (where_args "id" i))
  end.

(** The [data] argument of [prisma.user.create]. *)
Record CreateData : Type := mkData {
  d_email : option value;
  d_password : string;
  d_fullName : option value;
  d_role : option value;
  d_dateOfBirth : option JsDate
}.

(** An optional string column: [undefined] and [null] store NULL. *)
Definition optional_string (v : option value) : option (option string) :=
  match v with
  | None | Some VNull => Some None
  | Some (VStr s) => Some (Some s)
  | _ => None
  end.

Definition optional_date (d : option JsDate) : option (option Z) :=
  match d with
  | None => Some None
  | Some (ValidDate ms) => Some (Some ms)
  | Some InvalidDate => None
  end.

(** The arguments of [create] checked against the column types:
    [email] and [role] are strings, [fullName] an optional string,
    [dateOfBirth] an optional valid date. *)
Definition typecheck (d : CreateData)
  : option (string * option string * string * option Z) :=
  match d_email d, d_role d,
        optional_string (d_fullName d), optional_date (d_dateOfBirth d) with
  | Some (VStr e), Some (VStr r), Some fn, Some dob => Some (e, fn, r, dob)
  | _, _, _, _ => None
  end.

Definition insert (u : User) : M User :=
  fun w => (inr u,
            mkWorld (users w ++ [u]) (fault w) (now w) (rng w) (rng_pos w)
                    (log w)).

Definition check_fault (op : PrismaOp) : M unit :=
  fun w => match fault w op with
           | Some err => (inl err, w)
           | None => (inr tt, w)
           end.

Definition inspect_date (d : option JsDate) : string :=
  match d with
  | None => "null"
  | Some (ValidDate ms) => "new Date(" ++ show_Z ms ++ ")"
  | Some InvalidDate => "new Date(" ++ quoted "Invalid Date" ++ ")"
  end.

(** The [data] argument as a validation error prints it, in the order
    the route wrote it: what comes before the value of [password], and
    what comes after. *)
Definition data_before_password (d : CreateData) : string :=
  "{ data: { email: " ++ inspect_opt (d_email d) ++ ", password: " ++ dquote.

Definition data_after_password (d : CreateData) : string :=
  dquote ++ ", fullName: " ++ inspect_opt (d_fullName d)
    ++ ", role: " ++ inspect_opt (d_role d)
    ++ ", dateOfBirth: " ++ inspect_date (d_dateOfBirth d)
    ++ " } } Invalid value provided for an argument of `data`.".

Definition data_args (d : CreateData) : string :=
  data_before_password d ++ d_password d ++ data_after_password d.

(** [prisma.user.create({ data })]: type-checks the arguments, draws the
    fresh id, enforces the unique index on [email] and the primary key,
    appends the row (both timestamps set to the clock) and returns it. *)
Definition create (d : CreateData) : M User :=
  match typecheck d with
  | None => throw (validation_error "create" (data_args d))
  | Some (e, fn, r, dob) =>
      check_fault Create ;;;
      new_id <- draw ;;
      w <- get_world ;;
      if existsb (by_email e) (users w)
      then throw (unique_error "email")
      else if existsb (by_id new_id) (users w)
      then throw (unique_error "id")
      else insert (mkUser new_id e fn (d_password d) r dob (now w) (now w))
  end.

End Prisma.

(* ================================================================== *)
(** ** The login schema (zod) *)
(* ================================================================== *)

(** [z.object({ email: z.string().email(...), password:
    z.string().min(1, ...) })]: each key is parsed on its own and the
    issues of all keys are reported together, in the issue format of
    zod 3 ([code], [path], [message] and the fields of the issue kind). *)
Module Zod.
Section Schema.
Context {L : Collaborators}.

(** zod's name for the type of a parsed input. *)
Definition parsed_type (v : option value) : string :=
  match v with
  | None => "undefined"
  | Some VNull => "null"
  | Some (VBool _) => "boolean"
  | Some (VNum _) => "number"
  | Some (VStr _) => "string"
  | Some (VDate _) => "date"
  | Some (VArr _) => "array"
  | Some (VObj _) => "object"
  end.

Definition path_of (p : list string) : value := VArr (map VStr p).

Definition invalid_type (expected : string) (v : option value)
           (p : list string) : value :=
  VObj [ ("code", VStr "invalid_type");
         ("expected", VStr expected);
         ("received", VStr (parsed_type v));
         ("path", path_of p);
         ("message",
          VStr (match v with
                | None => "Required"
                | Some _ => "Expected " ++ expected ++ ", received "
                              ++ parsed_type v
                end)) ].

(** [z.string().email("Invalid email address")] at key [email]. *)
Definition parse_email (v : option value) : list value + string :=
  match v with
  | Some (VStr s) =>
      if is_email s then inr s
      else inl [ VObj [ ("validation", VStr "email");
                        ("code", VStr "invalid_string");
                        ("message", VStr "Invalid email address");
                        ("path", path_of ["email"]) ] ]
  | _ => inl [ invalid_type "string" v ["email"] ]
  end.

(** [z.string().min(1, "Password is required")] at key [password]. *)
Definition parse_password (v : option value) : list value + string :=
  match v with
  | Some (VStr s) =>
      if (1 <=? String.length s)%nat then inr s
      else inl [ VObj [ ("code", VStr "too_small");
                        ("minimum", VNum 1);
                        ("type", VStr "string");
                        ("inclusive", VBool true);
                        ("exact", VBool false);
                        ("message", VStr "Password is required");
                        ("path", path_of ["password"]) ] ]
  | _ => inl [ invalid_type "string" v ["password"] ]
  end.

Definition issues_of {A} (r : list value + A) : list value :=
  match r with inl l => l | inr _ => [] end.

(** [loginSchema.safeParse(body)]: the parsed [{ email, password }], or
    the issues of every key that failed. *)
Definition loginSchema_safeParse (b : value)
  : list value + (string * string) :=
  match b with
  | VObj fields =>
      match parse_email (assoc "email" fields),
            parse_password (assoc "password" fields) with
      | inr e, inr p => inr (e, p)
      | re, rp => inl (issues_of re ++ issues_of rp)%list
      end
  | _ => inl [ invalid_type "object" (Some b) [] ]
  end.

End Schema.
End Zod.

(* ================================================================== *)
(** ** [frontend/src/lib/auth.ts] *)
(* ================================================================== *)

(** [interface JWTPayload]. *)
Record JWTPayload : Type := mkPayload {
  p_id : string;
  p_email : string;
  p_role : string
}.

Definition payload_value (p : JWTPayload) : value :=
  VObj [ ("id", VStr (p_id p));
         ("email", VStr (p_email p));
         ("role", VStr (p_role p)) ].

Definition default_secret : string :=
  "ruraledu-secret-key-change-in-production".

(** [process.env.JWT_SECRET || "ruraledu-secret-key-change-in-production"]. *)
Definition JWT_SECRET (env : ProcessEnv) : string :=
  match env_JWT_SECRET env with
  | Some s => if s == "" then default_secret else s
  | None => default_secret
  end.

Module Auth.
Section Lib.
Context {L : Collaborators}.
Variable env : ProcessEnv.

(** [jwt.verify(token, JWT_SECRET)], which throws on a token it rejects. *)
Definition jwt_verify_call (token : string) : M value :=
  fun w => match jwt_verify token (JWT_SECRET env) (now w) with
           | inl e => (inl (String_of_JwtError e), w)
           | inr decoded => (inr decoded, w)
           end.

(** [verifyToken(req)]: the decoded payload, or [null] ([None]). *)
Definition verifyToken (req : Request) : M (option value) :=
  try_catch
    (match headers_get "authorization" (req_headers req) with
     | None => ret None
     | Some authHeader =>
         if negb (negb (authHeader == ""))
            || negb (startsWith authHeader "Bearer ")
         then ret None
         else
           let token := substring_from 7 authHeader in
           decoded <- jwt_verify_call token ;;
           ret (Some decoded)
     end)
    (fun _ => ret None).

(** [generateToken(payload)]. *)
Definition generateToken (payload : JWTPayload) : M string :=
  fun w => (inr (jwt_sign (payload_value payload) (JWT_SECRET env) "7d"
                          (now w)), w).

End Lib.
End Auth.

(* ================================================================== *)
(** ** [POST /api/auth/signup] *)
(* ================================================================== *)

Module Signup.
Section Route.
Context {L : Collaborators}.

(** [bcrypt.hash(password, 10)] of bcryptjs: rejects a non-string. *)
Definition bcrypt_hash_call (data : option value) (rounds : Z) : M string :=
  match data with
  | Some (VStr s) => salt <- draw ;; ret (bcrypt_hash s rounds salt)
  | _ => throw ("Error: Illegal arguments: " ++ typeof data ++ ", number")
  end.

Definition POST (request : Request) : M Response :=
  try_catch
    (body <- request_json request ;;
     b <- destructure body ;;
     let email_ := get b "email" in
     let password_ := get b "password" in
     let fullName_ := get b "fullName" in
     let role_ := get b "role" in
     let dateOfBirth_ := get b "dateOfBirth" in
     if negb (truthy email_) || negb (truthy password_)
        || negb (truthy role_)
     then ret (NextResponse_json
                 (obj [("error", Some (VStr "Missing required fields"))])
                 400)
     else
       (* Check if user already exists *)
       existingUser <- Prisma.findUnique_email email_ ;;
       match existingUser with
       | Some _ =>
           ret (NextResponse_json
                  (obj [("error", Some (VStr "User already exists"))])
                  400)
       | None =>
           (* Hash password *)
           hashedPassword <- bcrypt_hash_call password_ 10 ;;
           (* Create new user *)
           newUser <- Prisma.create
                        (Prisma.mkData
                           email_ hashedPassword fullName_ role_
                           (match dateOfBirth_ with
                            | Some d => if truthy dateOfBirth_
                                        then Some (new_Date d) else None
                            | None => None
                            end)) ;;
           ret (NextResponse_json (userWithoutPassword newUser) 201)
       end)
    (fun error =>
       console_error "Signup error:" error ;;;
       ret (NextResponse_json
              (obj [("error", Some (VStr "Something went wrong"));
                    ("details", Some (VStr error))])
              500)).

End Route.
End Signup.

(* ================================================================== *)
(** ** [POST /api/auth/login], first side of the conflict (HEAD) *)
(* ================================================================== *)

Module LoginHead.
Section Route.
Context {L : Collaborators}.
Variable env : ProcessEnv.

Definition invalid_credentials : Response :=
  NextResponse_json
    (obj [("success", Some (VBool false));
          ("message", Some (VStr "Invalid email or password"))])
    401.

Definition POST (req : Request) : M Response :=
  try_catch
    (body <- request_json req ;;
     (* Validate input *)
     match Zod.loginSchema_safeParse body with
     | inl errors =>
         ret (NextResponse_json
                (obj [("success", Some (VBool false));
                      ("message", Some (VStr "Validation failed"));
                      ("errors", Some (VArr errors))])
                400)
     | inr (email_, password_) =>
         (* Find user *)
         user <- Prisma.findUnique_email (Some (VStr email_)) ;;
         match user with
         | None => ret invalid_credentials
         | Some user =>
             (* Verify password *)
             let isValidPassword :=
               bcrypt_compare password_ (password user) in
             if negb isValidPassword then ret invalid_credentials
             else
               (* Generate JWT token *)
               w <- get_world ;;
               let token :=
                 jwt_sign
                   (VObj [ ("id", VStr (id user));
                           ("email", VStr (email user));
                           ("role", VStr (role user)) ])
                   (JWT_SECRET env) "7d" (now w) in
               ret (NextResponse_json
                      (obj [("success", Some (VBool true));
                            ("message", Some (VStr "Login successful"));
                            ("token", Some (VStr token));
                            ("user", Some (userWithoutPassword user))])
                      200)
         end
     end)
    (fun error =>
       console_error "Login error:" error ;;;
       ret (NextResponse_json
              (obj [("success", Some (VBool false));
                    ("message", Some (VStr "Internal server error"));
                    ("error",
                     match env_NODE_ENV env with
                     | Some mode => if mode == "development"
                                    then Some (VStr error) else None
                     | None => None
                     end)])
              500)).

End Route.
End LoginHead.

(* ================================================================== *)
(** ** [POST /api/auth/login], second side of the conflict *)
(* ================================================================== *)

Module LoginTheirs.
Section Route.
Context {L : Collaborators}.

(** [bcrypt.compare(password, hash)] of bcryptjs: rejects a non-string. *)
Definition bcrypt_compare_call (data : option value) (hash : string)
  : M bool :=
  match data with
  | Some (VStr s) => ret (bcrypt_compare s hash)
  | _ => throw ("Error: Illegal arguments: " ++ typeof data ++ ", string")
  end.

(** [await login(userWithoutPassword)]. *)
Definition login (user : value) : M (list (string * string)) :=
  fun w => match session_login user (now w) with
           | inl e => (inl e, w)
           | inr cookies => (inr cookies, w)
           end.

Definition invalid_credentials : Response :=
  NextResponse_json (obj [("error", Some (VStr "Invalid credentials"))]) 401.

Definition POST (request : Request) : M Response :=
  try_catch
    (body <- request_json request ;;
     b <- destructure body ;;
     let email_ := get b "email" in
     let password_ := get b "password" in
     if negb (truthy email_) || negb (truthy password_)
     then ret (NextResponse_json
                 (obj [("error", Some (VStr "Missing email or password"))])
                 400)
     else
       user <- Prisma.findUnique_email email_ ;;
       match user with
       | None => ret invalid_credentials
       | Some user =>
           isPasswordValid <- bcrypt_compare_call password_ (password user) ;;
           if negb isPasswordValid then ret invalid_credentials
           else
             (* Set cookie and session *)
             cookies <- login (userWithoutPassword user) ;;
             ret (mkResponse
                    200
                    (obj [("message", Some (VStr "Logged in successfully"));
                          ("user", Some (userWithoutPassword user))])
                    cookies)
       end)
    (fun error =>
       console_error "Login error:" error ;;;
       ret (NextResponse_json
              (obj [("error", Some (VStr "Internal server error"))])
              500)).

End Route.
End LoginTheirs.

(* ================================================================== *)
(** ** [GET /api/auth/me] *)
(* ================================================================== *)

Module Me.
Section Route.
Context {L : Collaborators}.
Variable env : ProcessEnv.

Definition unauthorized : Response :=
  NextResponse_json
    (obj [("success", Some (VBool false));
          ("message", Some (VStr "Unauthorized - Invalid or missing token"))])
    401.

Definition not_found : Response :=
  NextResponse_json
    (obj [("success", Some (VBool false));
          ("message", Some (VStr "User not found"))])
    404.

Definition GET (req : Request) : M Response :=
  try_catch
    (payload <- Auth.verifyToken env req ;;
     match payload with
     | None => ret unauthorized
     | Some p =>
         if negb (truthy payload) then ret unauthorized
         else
           (* Fetch user from database *)
           user <- Prisma.findUnique_id_select (get p "id") ;;
           match user with
           | None => ret not_found
           | Some user =>
               ret (NextResponse_json
                      (obj [("success", Some (VBool true));
                            ("user", Some user)])
                      200)
           end
     end)
    (fun error =>
       console_error "Get user error:" error ;;;
       ret (NextResponse_json
              (obj [("success", Some (VBool false));
                    ("message", Some (VStr "Internal server error"))])
              500)).

End Route.
End Me.

(* ================================================================== *)
(** ** The login route as [docs/Authentication.md] prints it *)
(* ================================================================== *)

(** The guide shows an earlier login handler (no input validation, a
    one-hour token over [{ id, email }], no user in the answer).  It is
    documentation, not the route the application serves; it is kept here
    to compare its failure answers with those of the route. *)
Module AuthenticationMd.
Section Route.
Context {L : Collaborators}.
Variable env : ProcessEnv.
(** How [JSON.stringify] renders a caught error object. *)
Variable error_json : Exn -> value.

Definition JWT_SECRET : string :=
  match env_JWT_SECRET env with
  | Some s => if s == "" then "supersecretkey" else s
  | None => "supersecretkey"
  end.

(** [bcrypt.compare(password, hash)] of the native binding. *)
Definition bcrypt_compare_call (data : option value) (hash : string)
  : M bool :=
  match data with
  | Some (VStr s) => ret (bcrypt_compare s hash)
  | _ => throw "Error: data and hash arguments required"
  end.

Definition user_not_found : Response :=
  NextResponse_json
    (obj [("success", Some (VBool false));
          ("message", Some (VStr "User not found"))])
    404.

Definition invalid_credentials : Response :=
  NextResponse_json
    (obj [("success", Some (VBool false));
          ("message", Some (VStr "Invalid credentials"))])
    401.

Definition POST (req : Request) : M Response :=
  try_catch
    (body <- request_json req ;;
     b <- destructure body ;;
     let email_ := get b "email" in
     let password_ := get b "password" in
     user <- Prisma.findUnique_email email_ ;;
     match user with
     | None => ret user_not_found
     | Some user =>
         isValid <- bcrypt_compare_call password_ (password user) ;;
         if negb isValid then ret invalid_credentials
         else
           w <- get_world ;;
           let token :=
             jwt_sign (VObj [ ("id", VStr (id user));
                              ("email", VStr (email user)) ])
                      JWT_SECRET "1h" (now w) in
           ret (NextResponse_json
                  (obj [("success", Some (VBool true));
                        ("message", Some (VStr "Login successful"));
                        ("token", Some (VStr token))])
                  200)
     end)
    (fun error =>
       ret (NextResponse_json
              (obj [("success", Some (VBool false));
                    ("message", Some (VStr "Login failed"));
                    ("error", Some (error_json error))])
              500)).

End Route.
End AuthenticationMd.

(* ================================================================== *)
(** ** The protected route of [docs/Authentication.md] *)
(* ================================================================== *)

(** [GET /api/users] as the guide prints it: the token is the second
    blank-separated word of the [Authorization] header. *)
Module ProtectedRoute.

(** [s.split(sep)] for a one-character separator. *)
Fixpoint split (sep : ascii) (s : string) : list string :=
  match s with
  | EmptyString => [EmptyString]
  | String a rest =>
      if Ascii.eqb a sep then EmptyString :: split sep rest
      else match split sep rest with
           | [] => [String a EmptyString]
           | x :: xs => String a x :: xs
           end
  end.

Section Route.
Context {L : Collaborators}.
Variable env : ProcessEnv.

Definition jwt_verify_call (token : string) : M value :=
  fun w => match jwt_verify token (AuthenticationMd.JWT_SECRET env) (now w)
           with
           | inl e => (inl (String_of_JwtError e), w)
           | inr decoded => (inr decoded, w)
           end.

Definition token_missing : Response :=
  NextResponse_json
    (obj [("success", Some (VBool false));
          ("message", Some (VStr "Token missing"))])
    401.

Definition invalid_token : Response :=
  NextResponse_json
    (obj [("success", Some (VBool false));
          ("message", Some (VStr "Invalid or expired token"))])
    403.

Definition GET (req : Request) : M Response :=
  try_catch
    (let authHeader := headers_get "authorization" (req_headers req) in
     let token := match authHeader with
                  | Some h => nth_error (split " " h) 1
                  | None => None
                  end in
     match token with
     | None => ret token_missing
     | Some tok =>
         if tok == "" then ret token_missing
         else
           decoded <- jwt_verify_call tok ;;
           ret (NextResponse_json
                  (obj [("success", Some (VBool true));
                        ("message", Some (VStr "Protected data accessed"));
                        ("user", Some decoded)])
                  200)
     end)
    (fun _ => ret invalid_token).

End Route.
End ProtectedRoute.

(* ================================================================== *)
(** ** The page guard of [docs/page-routing.md] ([middleware.ts]) *)
(* ================================================================== *)

Module Middleware.

(** [NextResponse.next()], or [NextResponse.redirect] to a path of the
    same origin. *)
Inductive Result : Type :=
| Next
| Redirect (location : string).

(** What the guard reads of a request: [req.nextUrl.pathname] and the
    cookies. *)
Record NextRequest : Type := mkNextRequest {
  pathname : string;
  cookies : list (string * string)
}.

(** [req.cookies.get(name)?.value]. *)
Fixpoint cookies_get (name : string) (cs : list (string * string))
  : option string :=
  match cs with
  | [] => None
  | (n, v) :: rest => if n == name then Some v else cookies_get name rest
  end.

Section Guard.
Context {L : Collaborators}.
Variable env : ProcessEnv.

Definition jwt_verify_call (token : string) : M value :=
  fun w => match jwt_verify token (AuthenticationMd.JWT_SECRET env) (now w)
           with
           | inl e => (inl (String_of_JwtError e), w)
           | inr decoded => (inr decoded, w)
           end.

(** [NextResponse.redirect(new URL("/login", req.url))]. *)
Definition to_login : Result := Redirect "/login".

Definition middleware (req : NextRequest) : M Result :=
  let pathname_ := pathname req in
  (* Public routes *)
  if startsWith pathname_ "/login" || (pathname_ == "/") then ret Next
  else
    (* Protected routes *)
    if startsWith pathname_ "/dashboard" || startsWith pathname_ "/users"
    then
      match cookies_get "token" (cookies req) with
      | None => ret to_login
      | Some token =>
          if token == "" then ret to_login
          else
            try_catch
              (jwt_verify_call token ;;; ret Next)
              (fun _ => ret to_login)
      end
    else ret Next.

End Guard.
End Middleware.

(* ================================================================== *)
(** ** The error handler of [docs/Client-Side.md] *)
(* ================================================================== *)

(** [lib/logger.ts] and [lib/errorHandler.ts] as the guide prints them. *)
Module ErrorHandler.

(** A caught value other than [null] and [undefined], as far as the
    handler looks at it: [error.message] and [error.stack], either of
    which may be [undefined] (both are, for a thrown string or number). *)
Record Caught : Type := mkCaught {
  message : option value;
  stack : option value
}.

(** What a [catch] can bind: anything that was thrown, [null] and
    [undefined] included ([error: any]). *)
Inductive Thrown : Type :=
| ThrownNull
| ThrownUndefined
| ThrownValue (c : Caught).

(** The property read [error.name]: reading a property of [null] or
    [undefined] throws. *)
Definition read_property (error : Thrown) (name : string)
           (field : Caught -> option value) : M (option value) :=
  match error with
  | ThrownValue c => ret (field c)
  | ThrownNull =>
      throw ("TypeError: Cannot read properties of null (reading '"
               ++ name ++ "')")
  | ThrownUndefined =>
      throw ("TypeError: Cannot read properties of undefined (reading '"
               ++ name ++ "')")
  end.

Section Handler.
Variable env : ProcessEnv.
(** [JSON.stringify]. *)
Variable JSON_stringify : value -> string.

Definition console_write (line : string) : M unit :=
  fun w => (inr tt,
            mkWorld (users w) (fault w) (now w) (rng w) (rng_pos w)
                    (log w ++ [line])).

(** The object [logger.info] and [logger.error] serialise. *)
Definition log_entry (level msg : string) (meta : option value) (t : Z)
  : value :=
  obj [("level", Some (VStr level));
       ("message", Some (VStr msg));
       ("meta", meta);
       ("timestamp", Some (VDate t))].

Definition logger_info (msg : string) (meta : option value) : M unit :=
  w <- get_world ;;
  console_write (JSON_stringify (log_entry "info" msg meta (now w))).

Definition logger_error (msg : string) (meta : option value) : M unit :=
  w <- get_world ;;
  console_write (JSON_stringify (log_entry "error" msg meta (now w))).

Definition isProd : bool :=
  match env_NODE_ENV env with
  | Some mode => mode == "production"
  | None => false
  end.

Definition safe_message : string :=
  "Something went wrong. Please try again later.".

(** [error.message || "Unknown error"]. *)
Definition message_or_unknown (m : option value) : value :=
  match m with
  | Some v => if truthy m then v else VStr "Unknown error"
  | None => VStr "Unknown error"
  end.

Definition handleError (error : Thrown) (context : string) : M Response :=
  errorResponse <-
    (if isProd
     then ret (obj [("success", Some (VBool false));
                    ("message", Some (VStr safe_message))])
     else
       m <- read_property error "message" message ;;
       s <- read_property error "stack" stack ;;
       ret (obj [("success", Some (VBool false));
                 ("message", Some (message_or_unknown m));
                 ("stack", s)])) ;;
  m <- read_property error "message" message ;;
  s <- (if isProd then ret (Some (VStr "REDACTED"))
        else read_property error "stack" stack) ;;
  logger_error ("Error in " ++ context)
               (Some (obj [("message", m); ("stack", s)])) ;;;
  ret (NextResponse_json errorResponse 500).

End Handler.
End ErrorHandler.

(* ================================================================== *)
(** ** A reference implementation of the collaborators *)
(* ================================================================== *)

(** A small, executable stand-in for the libraries, used to run the
    handlers on concrete requests.  Tokens are
    [id|email|role|expiry|secret]; an email is a string with an [@]. *)
Module Reference.

Fixpoint split_on (c : ascii) (s : string) : list string :=
  match s with
  | EmptyString => [EmptyString]
  | String a rest =>
      if Ascii.eqb a c then EmptyString :: split_on c rest
      else match split_on c rest with
           | [] => [String a EmptyString]
           | x :: xs => String a x :: xs
           end
  end.

Fixpoint contains (c : ascii) (s : string) : bool :=
  match s with
  | EmptyString => false
  | String a rest => Ascii.eqb a c || contains c rest
  end.

Definition show (n : Z) : string :=
  NilZero.string_of_uint (N.to_uint (Z.to_N n)).

Definition read (s : string) : option Z :=
  option_map (fun u => Z.of_N (N.of_uint u)) (NilZero.uint_of_string s).

Definition seconds (ms : Z) : Z := ms / 1000.

Definition seven_days : Z := 604800.

Definition sign (payload : value) (secret expiresIn : string) (t : Z)
  : string :=
  match get payload "id", get payload "email", get payload "role" with
  | Some (VStr i), Some (VStr e), Some (VStr r) =>
      i ++ "|" ++ e ++ "|" ++ r ++ "|"
        ++ show (seconds t + seven_days) ++ "|" ++ secret
  | _, _, _ => ""
  end.

Definition verify (token secret : string) (t : Z) : JwtError + value :=
  match split_on "|" token with
  | [i; e; r; x; k] =>
      if negb (k == secret) then inl (JsonWebTokenError "invalid signature")
      else match read x with
           | None => inl (JsonWebTokenError "jwt malformed")
           | Some expiry =>
               if expiry <=? seconds t then inl TokenExpiredError
               else inr (VObj [ ("id", VStr i); ("email", VStr e);
                                ("role", VStr r);
                                ("iat", VNum (expiry - seven_days));
                                ("exp", VNum expiry) ])
           end
  | _ => inl (JsonWebTokenError "jwt malformed")
  end.

#[local] Instance collaborators : Collaborators := {|
  bcrypt_hash := fun data rounds salt => "$2a$10$" ++ salt ++ "$" ++ data;
  bcrypt_compare := fun data hash =>
    match split_on "$" hash with
    | [_; _; _; _; d] => d == data
    | _ => false
    end;
  jwt_sign := sign;
  jwt_verify := verify;
  is_email := contains "@";
  new_Date := fun v => match v with
                       | VNum n => ValidDate n
                       | VStr s => match read s with
                                   | Some n => ValidDate n
                                   | None => InvalidDate
                                   end
                       | _ => InvalidDate
                       end;
  session_login := fun user t =>
    inr [("session", sign user default_secret "7d" t)]
|}.

Definition env : ProcessEnv := mkEnv None (Some "production").

Definition signup : Request -> M Response := Signup.POST.
Definition login_head : Request -> M Response := LoginHead.POST env.
Definition login_theirs : Request -> M Response := LoginTheirs.POST.
Definition me : Request -> M Response := Me.GET env.

Definition no_fault : PrismaOp -> option Exn := fun _ => None.

Definition ids (n : nat) : string := "user-" ++ show (Z.of_nat n).

(** An empty database at clock [1000000]. *)
Definition w0 : World := mkWorld [] no_fault 1000000 ids 0 [].

Definition post (b : value) : Request := mkRequest [] [] (Some b).

Definition alice : value :=
  VObj [ ("email", VStr "a@b.com");
         ("password", VStr "secret123");
         ("role", VStr "LEARNER") ].

Definition alice_row : User :=
  mkUser "user-1" "a@b.com" None "$2a$10$user-0$secret123" "LEARNER" None
         1000000 1000000.

(** The state after Alice has signed up. *)
Definition w1 : World := mkWorld [alice_row] no_fault 1000000 ids 2 [].

(** Alice's row after her email was changed, and the table holding it a
    thousand seconds after her signup. *)
Definition alice_renamed : User :=
  mkUser "user-1" "alice@new.org" None "$2a$10$user-0$secret123" "LEARNER"
         None 1000000 1500000.

Definition w1_renamed : World :=
  mkWorld [alice_renamed] no_fault 2000000 ids 2 [].

(** The same table a thousand seconds later, and eight days later. *)
Definition w1_later : World :=
  mkWorld [alice_row] no_fault 2000000 ids 2 [].

Definition w1_expired : World :=
  mkWorld [alice_row] no_fault 692200000 ids 2 [].

Definition db_error : Exn :=
  "PrismaClientInitializationError: Can't reach database server at `localhost:5432`".

(** The same table while the database cannot be reached. *)
Definition w1_down : World :=
  mkWorld [alice_row] (fun _ => Some db_error) 1000000 ids 2 [].

(** Signup bodies without a role, and with an email that is no address. *)
Definition no_role : value :=
  VObj [ ("email", VStr "a@b.com"); ("password", VStr "secret123") ].

Definition bad_email : value :=
  VObj [ ("email", VStr "not-an-email");
         ("password", VStr "secret123");
         ("role", VStr "LEARNER") ].

(** Alice's signup with every field the form sends. *)
Definition alice_full : value :=
  VObj [ ("email", VStr "a@b.com");
         ("password", VStr "secret123");
         ("fullName", VStr "Alice A.");
         ("role", VStr "LEARNER");
         ("dateOfBirth", VStr "946684800000") ].


Definition bad_email_row : User :=
  mkUser "user-1" "not-an-email" None "$2a$10$user-0$secret123" "LEARNER"
         None 1000000 1000000.

Definition bearer (token : string) : Request :=
  mkRequest [("authorization", "Bearer " ++ token)] [] None.

Definition with_cookie (token : string) : Request :=
  mkRequest [] [("session", token)] None.

Definition alice_token : string :=
  "user-1|a@b.com|LEARNER|605800|ruraledu-secret-key-change-in-production".

(** A second token for Alice's id, with another email and role. *)
Definition alice_token_other_claims : string :=
  "user-1|someone@else.org|TEACHER|605800|ruraledu-secret-key-change-in-production".

(** A token signed with the secret the guide's snippets fall back to. *)
Definition guide_token : string :=
  "user-1|a@b.com|LEARNER|605800|supersecretkey".

Definition dashboard_with_token : Middleware.NextRequest :=
  Middleware.mkNextRequest "/dashboard/home" [("token", guide_token)].

Definition dashboard_without_token : Middleware.NextRequest :=
  Middleware.mkNextRequest "/dashboard/home" [].

Definition guard : Middleware.NextRequest -> M Middleware.Result :=
  Middleware.middleware env.

Definition guide_login : Request -> M Response :=
  AuthenticationMd.POST env VStr.

End Reference.

(* ================================================================== *)
(** ** Reasoning about handlers *)
(* ================================================================== *)

(** [post c Q]: whenever [c] returns, its result satisfies [Q]. *)
Definition post {A} (c : M A) (Q : A -> Prop) : Prop :=
  forall w, match c w with
            | (inr a, _) => Q a
            | (inl _, _) => True
            end.

(** [total c Q]: [c] always returns, with a result that satisfies [Q]. *)
Definition total {A} (c : M A) (Q : A -> Prop) : Prop :=
  forall w, exists a w', c w = (inr a, w') /\ Q a.

(** The table's integrity constraints: primary key and unique index. *)
Definition wf_users (l : list User) : Prop :=
  NoDup (map id l) /\ NoDup (map email l).

(** No object in the body has a property named like the column that
    stores the hash ([password] in the table, [passwordHash] in the
    spec).  This is about property names; it says nothing of what the
    string values of the body contain. *)
Definition no_password_key (r : Response) : Prop :=
  mentions_key "password" (body r) = false
  /\ mentions_key "passwordHash" (body r) = false.

(** A body for [POST] requests. *)
Definition credentials (e p : string) : value :=
  VObj [ ("email", VStr e); ("password", VStr p) ].

(** The claims the library adds to a payload it signs. *)
Definition with_claims (payload : value) (iat exp : Z) : value :=
  match payload with
  | VObj fields =>
      VObj (fields ++ [ ("iat", VNum iat); ("exp", VNum exp) ])
  | _ => payload
  end.

(** The token signed over [payload] at clock [t0] is still accepted at
    clock [t1], and decodes to the payload it was signed over. *)
Definition token_valid_at {L : Collaborators}
           (payload : value) (secret : string) (t0 t1 : Z) : Prop :=
  exists iat exp,
    jwt_verify (jwt_sign payload secret "7d" t0) secret t1
    = inr (with_claims payload iat exp).

(** The token signed over [payload] at clock [t0] is still accepted at
    clock [t1], and what the library decodes from it carries the id [i].
    Nothing is assumed of the other claims it decodes. *)
Definition token_accepted_with_id {L : Collaborators}
           (payload : value) (secret : string) (t0 t1 : Z) (i : string)
  : Prop :=
  exists decoded,
    jwt_verify (jwt_sign payload secret "7d" t0) secret t1 = inr decoded
    /\ get decoded "id" = Some (VStr i).

(** [req] posts the credentials [e] and [p] (among possibly other
    properties, headers and cookies). *)
Definition login_request (req : Request) (e p : string) : Prop :=
  exists b, req_body req = Some b
            /\ get b "email" = Some (VStr e)
            /\ get b "password" = Some (VStr p).

(** The credentials pass the input checks of both login variants. *)
Definition well_formed_credentials {L : Collaborators} (e p : string)
  : Prop :=
  is_email e = true /\ e <> "" /\ p <> "".

Definition no_user_with_email (w : World) (e : string) : Prop :=
  forall u, In u (users w) -> email u <> e.

Definition some_user_with_email (w : World) (e : string) : Prop :=
  exists u, In u (users w) /\ email u = e.

(** [e] is registered, and [p] is not the password stored under it. *)
Definition wrong_password_for {L : Collaborators} (w : World)
           (e p : string) : Prop :=
  some_user_with_email w e
  /\ forall u, In u (users w) -> email u = e ->
                bcrypt_compare p (password u) = false.

(** The body carries the three properties signup insists on. *)
Definition signup_fields_present (b : value) : Prop :=
  truthy (get b "email") = true
  /\ truthy (get b "password") = true
  /\ truthy (get b "role") = true.

Definition conflict_response : Response :=
  NextResponse_json (VObj [("error", VStr "User already exists")]) 400.

Definition missing_fields_response : Response :=
  NextResponse_json (VObj [("error", VStr "Missing required fields")]) 400.

Definition db_up (w : World) : Prop := forall op, fault w op = None.

(** The row signup stores for a body that has only the three required
    properties: the salt is drawn first, the id second. *)
Definition signup_row {L : Collaborators} (w : World) (e pw r : string)
  : User :=
  mkUser (rng w (S (rng_pos w))) e None
         (bcrypt_hash pw 10 (rng w (rng_pos w))) r None (now w) (now w).

(** [req] carries [token] in an [Authorization: Bearer] header. *)
Definition bearer_request (req : Request) (token : string) : Prop :=
  headers_get "authorization" (req_headers req) = Some ("Bearer " ++ token).

(** The ways a request fails to present an acceptable token: no
    [Authorization] header; a header that is not a bearer credential; a
    bearer token the library rejects (expired, malformed, signed with
    another key: any [JwtError]). *)
Definition token_rejected {L : Collaborators} (env : ProcessEnv)
           (req : Request) (w : World) : Prop :=
  headers_get "authorization" (req_headers req) = None
  \/ (exists h, headers_get "authorization" (req_headers req) = Some h
                 /\ startsWith h "Bearer " = false)
  \/ (exists h err,
         headers_get "authorization" (req_headers req) = Some h
         /\ startsWith h "Bearer " = true
         /\ jwt_verify (substring_from 7 h) (JWT_SECRET env) (now w)
            = inl err).

Definition me_success (user : value) : Response :=
  NextResponse_json (VObj [("success", VBool true); ("user", user)]) 200.

(** [preserves c I]: running [c] from a state in [I] ends in a state in
    [I], whether [c] returns or throws. *)
Definition preserves {A} (c : M A) (I : World -> Prop) : Prop :=
  forall w, I w -> I (snd (c w)).

(** [read_only c]: [c] leaves the user table as it found it. *)
Definition read_only {A} (c : M A) : Prop :=
  forall w, users (snd (c w)) = users w.

(** A parsed body that is neither an object nor [null]. *)
Definition primitive_or_array (b : value) : Prop :=
  match b with
  | VNull | VObj _ => False
  | _ => True
  end.

(** [c], run from [w], answers with status [st]. *)
Definition answers (c : M Response) (w : World) (st : Z) : Prop :=
  exists r w', c w = (inr r, w') /\ status r = st.

(** [s] has no blank: splitting it at blanks gives back [s] alone. *)
Definition single_word (s : string) : Prop :=
  ProtectedRoute.split " " s = [s].

(** The guard's protected paths. *)
Definition protected_path (p : string) : bool :=
  startsWith p "/dashboard" || startsWith p "/users".

Section Logic.
Context {A B : Type}.

Lemma post_ret (a : A) (Q : A -> Prop) : Q a -> post (ret a) Q.
Proof. intros H w. exact H. Qed.

Lemma post_throw (e : Exn) (Q : A -> Prop) : post (throw e) Q.
Proof. intros w. exact I. Qed.

Lemma post_any (c : M A) : post c (fun _ => True).
Proof. intros w. destruct (c w) as [[e | a] w']; exact I. Qed.

Lemma post_bind (c : M A) (k : A -> M B) (Q : B -> Prop) :
  (forall a, post (k a) Q) -> post (bind c k) Q.
Proof.
  intros H w. unfold bind. destruct (c w) as [[e | a] w'].
  - exact I.
  - apply H.
Qed.

Lemma total_try_catch (c : M A) (h : Exn -> M A) (Q : A -> Prop) :
  post c Q -> (forall e, total (h e) Q) -> total (try_catch c h) Q.
Proof.
  intros Hc Hh w. unfold try_catch. specialize (Hc w).
  destruct (c w) as [[e | a] w'].
  - apply Hh.
  - exists a, w'. split; [reflexivity | exact Hc].
Qed.
End Logic.

Lemma total_log_then_ret {A} (tag : string) (e : Exn) (a : A)
      (Q : A -> Prop) :
  Q a -> total (bind (console_error tag e) (fun _ => ret a)) Q.
Proof.
  intros H w. eexists. eexists. split; [reflexivity | exact H].
Qed.

(** *** Facts about rows and lookups *)

Lemma userWithoutPassword_hides (u : User) (k : string) :
  k = "password" \/ k = "passwordHash" ->
  mentions_key k (userWithoutPassword u) = false.
Proof.
  intros [-> | ->]; destruct u as [i e fn p r dob c up];
    destruct fn, dob; reflexivity.
Qed.

Lemma select_me_hides (u : User) (k : string) :
  k = "password" \/ k = "passwordHash" ->
  mentions_key k (select_me u) = false.
Proof.
  intros [-> | ->]; destruct u as [i e fn p r dob c up];
    destruct fn; reflexivity.
Qed.

Lemma userWithoutPassword_get (u : User) :
  get (userWithoutPassword u) "id" = Some (VStr (id u))
  /\ get (userWithoutPassword u) "email" = Some (VStr (email u))
  /\ get (userWithoutPassword u) "password" = None.
Proof. repeat split. Qed.

Lemma zod_issues_hide {L : Collaborators} (b : value) (errs : list value)
      (k : string) :
  k = "password" \/ k = "passwordHash" ->
  Zod.loginSchema_safeParse b = inl errs ->
  mentions_key k (VArr errs) = false.
Proof.
  intros Hk H. destruct b; simpl in H;
    try (injection H as <-; destruct Hk as [-> | ->]; reflexivity).
  unfold Zod.parse_email, Zod.parse_password in H.
  destruct (assoc "email" fields) as [[ | | | s | | | ] | ];
    destruct (assoc "password" fields) as [[ | | | s' | | | ] | ];
    try destruct (is_email s);
    try destruct (1 <=? String.length s')%nat;
    try discriminate H;
    injection H as <-; destruct Hk as [-> | ->]; reflexivity.
Qed.

(** *** Every handler answers, and no property of the answer is named [password] *)

Ltac hides_literal :=
  split; reflexivity.

Lemma signup_hides {L : Collaborators} (req : Request) :
  total (Signup.POST req) no_password_key.
Proof.
  unfold Signup.POST. apply total_try_catch.
  - apply post_bind; intros b0. apply post_bind; intros b.
    destruct (negb (truthy (get b "email")) || negb (truthy (get b "password"))
              || negb (truthy (get b "role"))).
    + apply post_ret. hides_literal.
    + apply post_bind; intros [existing | ].
      * apply post_ret. hides_literal.
      * apply post_bind; intros h. apply post_bind; intros u.
        apply post_ret. split; apply userWithoutPassword_hides; auto.
  - intros e. apply total_log_then_ret. hides_literal.
Qed.

Lemma login_head_hides {L : Collaborators} (env : ProcessEnv)
      (req : Request) :
  total (LoginHead.POST env req) no_password_key.
Proof.
  unfold LoginHead.POST. apply total_try_catch.
  - apply post_bind; intros b.
    destruct (Zod.loginSchema_safeParse b) as [errs | [e p]] eqn:Hparse.
    + apply post_ret.
      pose proof (zod_issues_hide b errs "password" (or_introl eq_refl)
                                  Hparse) as H1.
      pose proof (zod_issues_hide b errs "passwordHash" (or_intror eq_refl)
                                  Hparse) as H2.
      split; cbn in *; [rewrite H1 | rewrite H2]; reflexivity.
    + apply post_bind; intros [u | ].
      * destruct (negb (bcrypt_compare p (password u))).
        -- apply post_ret. hides_literal.
        -- apply post_bind; intros w. apply post_ret.
           pose proof (userWithoutPassword_hides u "password"
                                                 (or_introl eq_refl)) as H1.
           pose proof (userWithoutPassword_hides u "passwordHash"
                                                 (or_intror eq_refl)) as H2.
           split; cbn in *; [rewrite H1 | rewrite H2]; reflexivity.
      * apply post_ret. hides_literal.
  - intros e. apply total_log_then_ret.
    destruct (env_NODE_ENV env) as [mode | ];
      [destruct (mode == "development") | ]; hides_literal.
Qed.

Lemma login_theirs_hides {L : Collaborators} (req : Request) :
  total (LoginTheirs.POST req) no_password_key.
Proof.
  unfold LoginTheirs.POST. apply total_try_catch.
  - apply post_bind; intros b0. apply post_bind; intros b.
    destruct (negb (truthy (get b "email"))
              || negb (truthy (get b "password"))).
    + apply post_ret. hides_literal.
    + apply post_bind; intros [u | ].
      * apply post_bind; intros ok. destruct (negb ok).
        -- apply post_ret. hides_literal.
        -- apply post_bind; intros cookies. apply post_ret.
           pose proof (userWithoutPassword_hides u "password"
                                                 (or_introl eq_refl)) as H1.
           pose proof (userWithoutPassword_hides u "passwordHash"
                                                 (or_intror eq_refl)) as H2.
           split; cbn in *; [rewrite H1 | rewrite H2]; reflexivity.
      * apply post_ret. hides_literal.
  - intros e. apply total_log_then_ret. hides_literal.
Qed.

Lemma findUnique_id_select_hides (i : option value) :
  post (Prisma.findUnique_id_select i)
       (fun r => forall row, r = Some row ->
                             mentions_key "password" row = false
                             /\ mentions_key "passwordHash" row = false).
Proof.
  intros w. unfold Prisma.findUnique_id_select.
  destruct i as [[ | | | s | | | ] | ]; try exact I.
  destruct (fault w FindUniqueById); [exact I | ].
  intros row Hrow. destruct (find (Prisma.by_id s) (users w)) as [u | ];
    [ | discriminate Hrow].
  injection Hrow as <-. split; apply select_me_hides; auto.
Qed.

Lemma post_bind_with {A B} (c : M A) (k : A -> M B) (R : A -> Prop)
      (Q : B -> Prop) :
  post c R -> (forall a, R a -> post (k a) Q) -> post (bind c k) Q.
Proof.
  intros Hc Hk w. unfold bind. specialize (Hc w).
  destruct (c w) as [[e | a] w'].
  - exact I.
  - apply Hk, Hc.
Qed.

Lemma me_hides {L : Collaborators} (env : ProcessEnv) (req : Request) :
  total (Me.GET env req) no_password_key.
Proof.
  unfold Me.GET. apply total_try_catch.
  - apply post_bind; intros [p | ].
    + destruct (negb (truthy (Some p))).
      * apply post_ret. hides_literal.
      * eapply post_bind_with; [apply findUnique_id_select_hides | ].
        intros [row | ] Hrow.
        -- destruct (Hrow row eq_refl) as [H1 H2].
           apply post_ret. split; cbn; [rewrite H1 | rewrite H2]; reflexivity.
        -- apply post_ret. hides_literal.
    + apply post_ret. hides_literal.
  - intros e. apply total_log_then_ret. hides_literal.
Qed.

(** Whatever the request and whatever the state of the server, signup,
    login (either side of the conflict) and "who am I" return a response,
    and no object in its payload, at any depth, has a property named
    [password] (the column that stores the hash) or [passwordHash].  This
    speaks of property names only: what the string values of a body hold
    is another matter, settled for signup's error answers below. *)
Lemma no_password_property
        (L : Collaborators) (env : ProcessEnv) (req : Request) (w : World) :
  (exists r w', Signup.POST req w = (inr r, w') /\ no_password_key r)
  /\ (exists r w', LoginHead.POST env req w = (inr r, w') /\ no_password_key r)
  /\ (exists r w', LoginTheirs.POST req w = (inr r, w') /\ no_password_key r)
  /\ (exists r w', Me.GET env req w = (inr r, w') /\ no_password_key r).
Proof.
  repeat split.
  - apply signup_hides.
  - apply login_head_hides.
  - apply login_theirs_hides.
  - apply me_hides.
Qed.

(** *** Lookups in the table *)

Lemma find_email_none (l : list User) (e : string) :
  (forall u, In u l -> email u <> e) -> find (Prisma.by_email e) l = None.
Proof.
  intros H. induction l as [ | u l IH]; [reflexivity | ].
  simpl. unfold Prisma.by_email at 1.
  destruct (String.eqb_spec (email u) e) as [Heq | Hne].
  - exfalso. apply (H u); [left; reflexivity | exact Heq].
  - apply IH. intros u' Hin. apply H. right. exact Hin.
Qed.

Lemma find_email_some (l : list User) (e : string) :
  (exists u, In u l /\ email u = e) ->
  exists u, find (Prisma.by_email e) l = Some u /\ In u l /\ email u = e.
Proof.
  intros [u [Hin He]].
  destruct (find (Prisma.by_email e) l) as [u' | ] eqn:Hfind.
  - exists u'. apply find_some in Hfind. destruct Hfind as [Hin' Hby].
    unfold Prisma.by_email in Hby. apply String.eqb_eq in Hby. auto.
  - exfalso. apply (find_none _ _ Hfind) in Hin.
    unfold Prisma.by_email in Hin. apply String.eqb_neq in Hin. auto.
Qed.

Lemma find_id_none (l : list User) (i : string) :
  (forall u, In u l -> id u <> i) -> find (Prisma.by_id i) l = None.
Proof.
  intros H. induction l as [ | u l IH]; [reflexivity | ].
  simpl. unfold Prisma.by_id at 1.
  destruct (String.eqb_spec (id u) i) as [Heq | Hne].
  - exfalso. apply (H u); [left; reflexivity | exact Heq].
  - apply IH. intros u' Hin. apply H. right. exact Hin.
Qed.

Lemma find_id_unique (l : list User) (u : User) :
  NoDup (map id l) -> In u l -> find (Prisma.by_id (id u)) l = Some u.
Proof.
  induction l as [ | x l IH]; intros Hnd Hin; [contradiction | ].
  simpl in Hnd. inversion Hnd as [ | ? ? Hnotin Hnd']; subst.
  simpl. unfold Prisma.by_id at 1.
  destruct Hin as [-> | Hin].
  - rewrite String.eqb_refl. reflexivity.
  - destruct (String.eqb_spec (id x) (id u)) as [Heq | Hne].
    + exfalso. apply Hnotin. rewrite Heq. apply in_map. exact Hin.
    + apply IH; assumption.
Qed.

Lemma find_email_unique (l : list User) (u : User) :
  NoDup (map email l) -> In u l ->
  find (Prisma.by_email (email u)) l = Some u.
Proof.
  induction l as [ | x l IH]; intros Hnd Hin; [contradiction | ].
  simpl in Hnd. inversion Hnd as [ | ? ? Hnotin Hnd']; subst.
  simpl. unfold Prisma.by_email at 1.
  destruct Hin as [-> | Hin].
  - rewrite String.eqb_refl. reflexivity.
  - destruct (String.eqb_spec (email x) (email u)) as [Heq | Hne].
    + exfalso. apply Hnotin. rewrite Heq. apply in_map. exact Hin.
    + apply IH; assumption.
Qed.

Lemma truthy_string (s : string) : s <> "" -> truthy (Some (VStr s)) = true.
Proof.
  intros H. simpl. apply String.eqb_neq in H. rewrite H. reflexivity.
Qed.

Lemma get_is_object (b : value) (k : string) (v : value) :
  get b k = Some v -> exists fields, b = VObj fields /\ assoc k fields = Some v.
Proof.
  destruct b; simpl; try discriminate. intros H. eauto.
Qed.

Lemma safeParse_accepts {L : Collaborators} (b : value) (e p : string) :
  get b "email" = Some (VStr e) -> get b "password" = Some (VStr p) ->
  is_email e = true -> p <> "" ->
  Zod.loginSchema_safeParse b = inr (e, p).
Proof.
  intros He Hp Hemail Hne.
  destruct (get_is_object _ _ _ He) as [fields [-> He']].
  simpl in Hp. unfold Zod.loginSchema_safeParse. rewrite He', Hp.
  unfold Zod.parse_email, Zod.parse_password. rewrite Hemail.
  destruct p as [ | c p']; [contradiction | reflexivity].
Qed.

(** *** Login: what a failed lookup and a failed comparison answer *)






(** *** Signup *)

Lemma existsb_email_false (l : list User) (e : string) :
  (forall u, In u l -> email u <> e) -> existsb (Prisma.by_email e) l = false.
Proof.
  intros H. induction l as [ | u l IH]; [reflexivity | ].
  simpl. unfold Prisma.by_email at 1.
  destruct (String.eqb_spec (email u) e) as [Heq | Hne].
  - exfalso. apply (H u); [left; reflexivity | exact Heq].
  - apply IH. intros u' Hin. apply H. right. exact Hin.
Qed.

Lemma existsb_id_false (l : list User) (i : string) :
  (forall u, In u l -> id u <> i) -> existsb (Prisma.by_id i) l = false.
Proof.
  intros H. induction l as [ | u l IH]; [reflexivity | ].
  simpl. unfold Prisma.by_id at 1.
  destruct (String.eqb_spec (id u) i) as [Heq | Hne].
  - exfalso. apply (H u); [left; reflexivity | exact Heq].
  - apply IH. intros u' Hin. apply H. right. exact Hin.
Qed.

Lemma signup_guard_passes (b : value) :
  signup_fields_present b ->
  negb (truthy (get b "email")) || negb (truthy (get b "password"))
  || negb (truthy (get b "role")) = false.
Proof. intros [-> [-> ->]]. reflexivity. Qed.

Lemma truthy_not_null (b : value) (k : string) :
  truthy (get b k) = true -> b <> VNull.
Proof. intros H ->. discriminate H. Qed.

Lemma destructure_ok (b : value) (w : World) :
  b <> VNull -> destructure b w = (inr b, w).
Proof. destruct b; intros H; [contradiction | reflexivity ..]. Qed.

(** Signup up to the lookup: once the body is destructured and the
    required-field guard is passed, the handler reaches [findUnique]. *)
Lemma signup_past_guard {L : Collaborators} (req : Request) (w : World)
      (b : value) :
  req_body req = Some b -> b <> VNull ->
  negb (truthy (get b "email")) || negb (truthy (get b "password"))
  || negb (truthy (get b "role")) = false ->
  Signup.POST req w
  = try_catch
      (existingUser <- Prisma.findUnique_email (get b "email") ;;
       match existingUser with
       | Some _ => ret conflict_response
       | None =>
           hashedPassword <- Signup.bcrypt_hash_call (get b "password") 10 ;;
           newUser <- Prisma.create
                        (Prisma.mkData
                           (get b "email") hashedPassword (get b "fullName")
                           (get b "role")
                           (match get b "dateOfBirth" with
                            | Some d => if truthy (get b "dateOfBirth")
                                        then Some (new_Date d) else None
                            | None => None
                            end)) ;;
           ret (NextResponse_json (userWithoutPassword newUser) 201)
       end)
      (fun error =>
         console_error "Signup error:" error ;;;
         ret (NextResponse_json
                (obj [("error", Some (VStr "Something went wrong"));
                      ("details", Some (VStr error))])
                500)) w.
Proof.
  intros Hb Hnn Hguard.
  unfold Signup.POST, try_catch, bind at 1 2, request_json. rewrite Hb.
  unfold ret at 1. rewrite (destructure_ok b w Hnn).
  rewrite Hguard. reflexivity.
Qed.

Lemma signup_reaches_lookup {L : Collaborators} (req : Request) (w : World)
      (b : value) :
  req_body req = Some b -> signup_fields_present b ->
  Signup.POST req w
  = try_catch
      (existingUser <- Prisma.findUnique_email (get b "email") ;;
       match existingUser with
       | Some _ => ret conflict_response
       | None =>
           hashedPassword <- Signup.bcrypt_hash_call (get b "password") 10 ;;
           newUser <- Prisma.create
                        (Prisma.mkData
                           (get b "email") hashedPassword (get b "fullName")
                           (get b "role")
                           (match get b "dateOfBirth" with
                            | Some d => if truthy (get b "dateOfBirth")
                                        then Some (new_Date d) else None
                            | None => None
                            end)) ;;
           ret (NextResponse_json (userWithoutPassword newUser) 201)
       end)
      (fun error =>
         console_error "Signup error:" error ;;;
         ret (NextResponse_json
                (obj [("error", Some (VStr "Something went wrong"));
                      ("details", Some (VStr error))])
                500)) w.
Proof.
  intros Hb Hpresent.
  apply (signup_past_guard req w b Hb).
  - exact (truthy_not_null b "email" (proj1 Hpresent)).
  - exact (signup_guard_passes b Hpresent).
Qed.

(** C4.  In every state where a user is registered under an email, a
    signup request that names that email never creates anything: whatever
    else it carries and whatever the database does, the answer is not 201
    and the user table is what it was, the existing row included.  When
    the request carries the password and role the handler requires and
    the lookup works, the answer is status 400 with the error "User
    already exists", and the whole server state is unchanged. *)
Theorem C4_duplicate_email_conflict
        (L : Collaborators) (req : Request) (w : World) (b : value)
        (u : User) :
  In u (users w) ->
  req_body req = Some b ->
  get b "email" = Some (VStr (email u)) ->
  (exists r w',
      Signup.POST req w = (inr r, w')
      /\ status r <> 201
      /\ users w' = users w
      /\ In u (users w'))
  /\ (signup_fields_present b ->
      fault w FindUniqueByEmail = None ->
      Signup.POST req w = (inr conflict_response, w)
      /\ status conflict_response = 400
      /\ body conflict_response = VObj [("error", VStr "User already exists")]).
Proof.
  intros Hin Hb He.
  destruct (find_email_some (users w) (email u)) as [u' [Hfind _]];
    [exists u; auto | ].
  assert (Hnn : b <> VNull) by (intros ->; discriminate He).
  split.
  - destruct (negb (truthy (get b "email")) || negb (truthy (get b "password"))
              || negb (truthy (get b "role"))) eqn:Hguard.
    + exists missing_fields_response, w.
      unfold Signup.POST, try_catch, bind, request_json. rewrite Hb.
      unfold ret at 1. rewrite (destructure_ok b w Hnn), Hguard.
      repeat split; [discriminate | exact Hin].
    + rewrite (signup_past_guard req w b Hb Hnn Hguard).
      unfold try_catch, bind, Prisma.findUnique_email. rewrite He.
      destruct (fault w FindUniqueByEmail) as [err | ].
      * eexists. eexists. split; [reflexivity | ].
        repeat split; [discriminate | exact Hin].
      * rewrite Hfind. exists conflict_response, w.
        repeat split; [discriminate | exact Hin].
  - intros Hpresent Hfault.
    rewrite (signup_reaches_lookup req w b Hb Hpresent).
    unfold try_catch, bind, Prisma.findUnique_email.
    rewrite He, Hfault, Hfind. repeat split.
Qed.

(** C3 (what the code does).  When the user lookup fails with an error
    whose text is [err], signup answers 500 with a body that repeats that
    text under [details]; nothing in the handler consults the deployment
    mode, so this is also its answer in production. *)
Theorem C3_signup_error_exposes_details
        (L : Collaborators) (req : Request) (w : World) (b : value)
        (e err : string) :
  req_body req = Some b ->
  get b "email" = Some (VStr e) ->
  signup_fields_present b ->
  fault w FindUniqueByEmail = Some err ->
  exists r w',
    Signup.POST req w = (inr r, w')
    /\ status r = 500
    /\ body r = VObj [ ("error", VStr "Something went wrong");
                       ("details", VStr err) ]
    /\ mentions_text err (body r) = true.
Proof.
  intros Hb He Hpresent Hfault.
  rewrite (signup_reaches_lookup req w b Hb Hpresent).
  unfold try_catch, bind, Prisma.findUnique_email.
  rewrite He, Hfault. cbn.
  eexists. eexists. repeat split.
  cbn. rewrite String.eqb_refl. apply orb_true_r.
Qed.


(** C9 (amended).  A signup request that supplies [email] and [password]
    but omits [role] is rejected with status 400 and the error "Missing
    required fields"; nothing is created and the state is unchanged. *)
Theorem C9_signup_without_role_rejected
        (L : Collaborators) (req : Request) (w : World) (b : value) :
  req_body req = Some b ->
  truthy (get b "email") = true ->
  truthy (get b "password") = true ->
  get b "role" = None ->
  Signup.POST req w = (inr missing_fields_response, w)
  /\ status missing_fields_response = 400.
Proof.
  intros Hb Hemail Hpw Hrole.
  pose proof (truthy_not_null b "email" Hemail) as Hnn.
  unfold Signup.POST, try_catch, bind, request_json. rewrite Hb.
  unfold ret at 1. rewrite (destructure_ok b w Hnn).
  rewrite Hemail, Hpw, Hrole. split; reflexivity.
Qed.

(** A well-typed signup with a fresh email creates the row and answers
    201 with the row minus its [password] column. *)
Lemma signup_creates {L : Collaborators} (req : Request) (w : World)
      (b : value) (e pw r : string) :
  req_body req = Some b ->
  get b "email" = Some (VStr e) ->
  get b "password" = Some (VStr pw) ->
  get b "role" = Some (VStr r) ->
  get b "fullName" = None ->
  get b "dateOfBirth" = None ->
  e <> "" -> pw <> "" -> r <> "" ->
  db_up w ->
  no_user_with_email w e ->
  (forall u, In u (users w) -> id u <> rng w (S (rng_pos w))) ->
  exists w',
    Signup.POST req w
    = (inr (NextResponse_json (userWithoutPassword (signup_row w e pw r)) 201),
       w')
    /\ users w' = (users w ++ [signup_row w e pw r])%list.
Proof.
  intros Hb He Hpw Hr Hfn Hdob Hne Hpwne Hrne Hup Hfresh Hid.
  assert (Hpresent : signup_fields_present b).
  { unfold signup_fields_present. rewrite He, Hpw, Hr.
    repeat split; apply truthy_string; assumption. }
  rewrite (signup_reaches_lookup req w b Hb Hpresent).
  unfold try_catch, bind, Prisma.findUnique_email.
  rewrite He, Hpw, Hr, Hfn, Hdob, (Hup FindUniqueByEmail).
  rewrite (find_email_none _ _ Hfresh).
  unfold Signup.bcrypt_hash_call, bind, draw, ret, Prisma.create.
  cbn [Prisma.typecheck Prisma.d_email Prisma.d_role Prisma.d_fullName
       Prisma.d_dateOfBirth Prisma.optional_string Prisma.optional_date
       Prisma.d_password].
  unfold bind, Prisma.check_fault, draw, get_world.
  cbn [fault users rng rng_pos now log]. rewrite (Hup Create).
  cbn [fault users rng rng_pos now log].
  rewrite (existsb_email_false _ _ Hfresh), (existsb_id_false _ _ Hid).
  unfold Prisma.insert. cbn [fault users rng rng_pos now log].
  eexists. split; reflexivity.
Qed.

(** C10 (what the code does).  Signup does not look at the syntax of
    [email]: a request whose email is a non-empty string that is not a
    valid address, with a password and a role, on a working database where
    the email is not taken, is answered 201 and the user is created. *)
Theorem C10_signup_accepts_malformed_email
        (L : Collaborators) (req : Request) (w : World) (b : value)
        (e pw r : string) :
  is_email e = false ->
  req_body req = Some b ->
  get b "email" = Some (VStr e) ->
  get b "password" = Some (VStr pw) ->
  get b "role" = Some (VStr r) ->
  get b "fullName" = None ->
  get b "dateOfBirth" = None ->
  e <> "" -> pw <> "" -> r <> "" ->
  db_up w ->
  no_user_with_email w e ->
  (forall u, In u (users w) -> id u <> rng w (S (rng_pos w))) ->
  exists resp w',
    Signup.POST req w = (inr resp, w')
    /\ status resp = 201
    /\ get (body resp) "email" = Some (VStr e)
    /\ users w' = (users w ++ [signup_row w e pw r])%list
    /\ email (signup_row w e pw r) = e.
Proof.
  intros _ Hb He Hpw Hr Hfn Hdob Hne Hpwne Hrne Hup Hfresh Hid.
  destruct (signup_creates req w b e pw r) as [w' [Hrun Husers]];
    try assumption.
  eexists. exists w'. split; [exact Hrun | ]. repeat split. exact Husers.
Qed.

(** *** Token verification and "who am I" *)

Lemma substring_all (s : string) : String.substring 0 (String.length s) s = s.
Proof. induction s as [ | c s IH]; simpl; [ | rewrite IH]; reflexivity. Qed.

Lemma bearer_token (token : string) :
  ("Bearer " ++ token == "") = false
  /\ startsWith ("Bearer " ++ token) "Bearer " = true
  /\ substring_from 7 ("Bearer " ++ token) = token.
Proof.
  repeat split.
  - unfold startsWith. simpl. destruct token; reflexivity.
  - unfold substring_from. simpl. rewrite Nat.sub_0_r. apply substring_all.
Qed.

Lemma startsWith_nonempty (h : string) :
  startsWith h "Bearer " = true -> (h == "") = false.
Proof. destruct h; [discriminate | reflexivity]. Qed.

(** [verifyToken] never throws and never touches the state. *)
Lemma verifyToken_total {L : Collaborators} (env : ProcessEnv)
      (req : Request) (w : World) :
  exists p, Auth.verifyToken env req w = (inr p, w).
Proof.
  unfold Auth.verifyToken, try_catch, bind, Auth.jwt_verify_call.
  cbv zeta.
  destruct (headers_get "authorization" (req_headers req)) as [h | ].
  - destruct (negb (negb (h == "")) || negb (startsWith h "Bearer ")).
    + eexists. reflexivity.
    + destruct (jwt_verify (substring_from 7 h) (JWT_SECRET env) (now w));
        eexists; reflexivity.
  - eexists. reflexivity.
Qed.

Lemma verifyToken_rejects {L : Collaborators} (env : ProcessEnv)
      (req : Request) (w : World) :
  token_rejected env req w -> Auth.verifyToken env req w = (inr None, w).
Proof.
  unfold Auth.verifyToken, try_catch, bind, Auth.jwt_verify_call.
  cbv zeta.
  intros [H | [[h [H Hpre]] | [h [err [H [Hpre Hv]]]]]]; rewrite H.
  - reflexivity.
  - rewrite Hpre, orb_true_r. reflexivity.
  - rewrite Hpre, (startsWith_nonempty h Hpre).
    cbn [negb orb]. cbv beta iota. rewrite Hv. reflexivity.
Qed.

Lemma verifyToken_accepts {L : Collaborators} (env : ProcessEnv)
      (req : Request) (w : World) (token : string) (decoded : value) :
  bearer_request req token ->
  jwt_verify token (JWT_SECRET env) (now w) = inr decoded ->
  Auth.verifyToken env req w = (inr (Some decoded), w).
Proof.
  intros Hreq Hv. destruct (bearer_token token) as [Hne [Hpre Hsub]].
  unfold Auth.verifyToken, try_catch, bind, Auth.jwt_verify_call.
  cbv zeta. rewrite Hreq, Hne, Hpre, Hsub.
  cbn [negb orb]. cbv beta iota. rewrite Hv. reflexivity.
Qed.

Lemma me_with_payload {L : Collaborators} (env : ProcessEnv)
      (req : Request) (w : World) (token : string) (decoded : value)
      (i : string) :
  bearer_request req token ->
  jwt_verify token (JWT_SECRET env) (now w) = inr decoded ->
  get decoded "id" = Some (VStr i) ->
  fault w FindUniqueById = None ->
  Me.GET env req w
  = (inr (match find (Prisma.by_id i) (users w) with
          | Some u => me_success (select_me u)
          | None => Me.not_found
          end), w).
Proof.
  intros Hreq Hv Hid Hfault.
  destruct (get_is_object _ _ _ Hid) as [fields [-> Hid']].
  unfold Me.GET, try_catch, bind at 1 2.
  rewrite (verifyToken_accepts env req w token _ Hreq Hv).
  cbn [truthy negb]. cbv beta iota. rewrite Hid.
  unfold bind, Prisma.findUnique_id_select. rewrite Hfault.
  destruct (find (Prisma.by_id i) (users w)); reflexivity.
Qed.

(** C7.  Token verification is total: for every request and state it
    returns an optional payload and never throws.  And whenever the
    request presents no acceptable token (no header, a header that is not
    a bearer credential, or a token the library rejects as expired,
    malformed or badly signed), "who am I" answers 401 with one fixed
    body, whatever the reason, and changes nothing. *)
Theorem C7_rejected_token_unauthorized
        (L : Collaborators) (env : ProcessEnv) (req : Request) (w : World) :
  (exists p, Auth.verifyToken env req w = (inr p, w))
  /\ (token_rejected env req w ->
      Me.GET env req w = (inr Me.unauthorized, w)
      /\ status Me.unauthorized = 401).
Proof.
  split; [apply verifyToken_total | ].
  intros Hrej. split; [ | reflexivity].
  unfold Me.GET, try_catch, bind.
  rewrite (verifyToken_rejects env req w Hrej). reflexivity.
Qed.

(** C8.  A request whose bearer token verifies (valid signature, not
    expired) and whose payload names an [id] that no row of the table
    has, while the lookup works, is answered 404 "User not found", not
    200. *)
Theorem C8_valid_token_unknown_user_not_found
        (L : Collaborators) (env : ProcessEnv) (req : Request) (w : World)
        (token : string) (decoded : value) (i : string) :
  bearer_request req token ->
  jwt_verify token (JWT_SECRET env) (now w) = inr decoded ->
  get decoded "id" = Some (VStr i) ->
  (forall u, In u (users w) -> id u <> i) ->
  fault w FindUniqueById = None ->
  Me.GET env req w = (inr Me.not_found, w)
  /\ status Me.not_found = 404
  /\ get (body Me.not_found) "success" = Some (VBool false).
Proof.
  intros Hreq Hv Hid Hnone Hfault.
  rewrite (me_with_payload env req w token decoded i Hreq Hv Hid Hfault).
  rewrite (find_id_none _ _ Hnone). repeat split.
Qed.

(** C6 (amended).  "Who am I" reads the credential from the
    [Authorization] header only.  A request whose [Authorization: Bearer]
    token verifies and names an existing user is answered 200 with that
    user, whatever cookies it carries; a request without an
    [Authorization] header is answered 401, whatever cookies it carries,
    a session cookie holding a valid token included. *)
Theorem C6_bearer_header_only
        (L : Collaborators) (env : ProcessEnv) (req : Request) (w : World) :
  (forall token decoded u,
      bearer_request req token ->
      jwt_verify token (JWT_SECRET env) (now w) = inr decoded ->
      get decoded "id" = Some (VStr (id u)) ->
      NoDup (map id (users w)) -> In u (users w) ->
      fault w FindUniqueById = None ->
      Me.GET env req w = (inr (me_success (select_me u)), w)
      /\ status (me_success (select_me u)) = 200)
  /\ (headers_get "authorization" (req_headers req) = None ->
      Me.GET env req w = (inr Me.unauthorized, w)
      /\ status Me.unauthorized = 401).
Proof.
  split.
  - intros token decoded u Hreq Hv Hid Hnd Hin Hfault.
    rewrite (me_with_payload env req w token decoded (id u)
                             Hreq Hv Hid Hfault).
    rewrite (find_id_unique _ _ Hnd Hin). split; reflexivity.
  - intros Hnone. split; [ | reflexivity].
    unfold Me.GET, try_catch, bind.
    rewrite (verifyToken_rejects env req w (or_introl Hnone)). reflexivity.
Qed.

(** *** Login success *)

Lemma login_head_succeeds {L : Collaborators} (env : ProcessEnv)
      (req : Request) (w : World) (u : User) (pw : string) :
  wf_users (users w) -> In u (users w) ->
  login_request req (email u) pw ->
  well_formed_credentials (email u) pw ->
  bcrypt_compare pw (password u) = true ->
  fault w FindUniqueByEmail = None ->
  LoginHead.POST env req w
  = (inr (NextResponse_json
            (VObj [ ("success", VBool true);
                    ("message", VStr "Login successful");
                    ("token",
                     VStr (jwt_sign
                             (payload_value
                                (mkPayload (id u) (email u) (role u)))
                             (JWT_SECRET env) "7d" (now w)));
                    ("user", userWithoutPassword u) ])
            200), w).
Proof.
  intros [_ Hnd] Hin [b [Hb [He Hp]]] [Hemail [Hne Hpne]] Hpw Hfault.
  unfold LoginHead.POST, try_catch, bind, request_json. rewrite Hb.
  unfold ret at 1.
  rewrite (safeParse_accepts b (email u) pw He Hp Hemail Hpne).
  unfold Prisma.findUnique_email. rewrite Hfault.
  rewrite (find_email_unique _ _ Hnd Hin), Hpw. reflexivity.
Qed.

(** The library's contract (verifying a token it signed returns the
    payload with [iat] and [exp] added) gives the acceptance used
    below. *)
Lemma token_valid_at_accepted {L : Collaborators} (p : JWTPayload)
      (secret : string) (t0 t1 : Z) :
  token_valid_at (payload_value p) secret t0 t1 ->
  token_accepted_with_id (payload_value p) secret t0 t1 (p_id p).
Proof.
  intros [iat [exp H]]. eexists. split; [exact H | reflexivity].
Qed.

(** The second side of the login route puts no token in its answer: its
    credential, if any, travels in the cookies its helper sets. *)
Lemma login_theirs_no_token {L : Collaborators} (req : Request) :
  total (LoginTheirs.POST req) (fun r => get (body r) "token" = None).
Proof.
  unfold LoginTheirs.POST. apply total_try_catch.
  - apply post_bind; intros b0. apply post_bind; intros b.
    destruct (negb (truthy (get b "email"))
              || negb (truthy (get b "password"))).
    + apply post_ret. reflexivity.
    + apply post_bind; intros [u | ].
      * apply post_bind; intros ok. destruct (negb ok).
        -- apply post_ret. reflexivity.
        -- apply post_bind; intros cookies. apply post_ret. reflexivity.
      * apply post_ret. reflexivity.
  - intros e. apply total_log_then_ret. reflexivity.
Qed.

(** C5.  Let [u] be a stored user and let a login with [u]'s email and
    password succeed.  The handler answers 200 with a token, the one
    [generateToken] produces for [u]'s id, email and role.  Present that
    token in a bearer header to "who am I" at any later moment at which
    the library still accepts it and decodes [u]'s id from it.  The
    answer is read from the table, not from the token: whatever row
    [u'] the table then holds under that id, the answer is 200 with
    exactly the selected columns of [u'].  So while [u] itself is still
    stored, the answer shows [u]'s [id] and [email], the ones stored at
    signup; and when no row has that id any more, the answer is 404.
    The first side of the login route is the only one that issues a
    token: no answer of the second side carries one. *)
Theorem C5_login_token_round_trip
        (L : Collaborators) (env : ProcessEnv) (req : Request)
        (w w' : World) (u : User) (pw : string) :
  wf_users (users w) -> In u (users w) ->
  login_request req (email u) pw ->
  well_formed_credentials (email u) pw ->
  bcrypt_compare pw (password u) = true ->
  fault w FindUniqueByEmail = None ->
  wf_users (users w') ->
  fault w' FindUniqueById = None ->
  token_accepted_with_id
    (payload_value (mkPayload (id u) (email u) (role u)))
    (JWT_SECRET env) (now w) (now w') (id u) ->
  (exists token r,
    LoginHead.POST env req w = (inr r, w)
    /\ status r = 200
    /\ get (body r) "token" = Some (VStr token)
    /\ Auth.generateToken env (mkPayload (id u) (email u) (role u)) w
       = (inr token, w)
    /\ forall req',
        bearer_request req' token ->
        (forall u',
            In u' (users w') -> id u' = id u ->
            Me.GET env req' w' = (inr (me_success (select_me u')), w'))
        /\ (In u (users w') ->
            exists r' shown,
              Me.GET env req' w' = (inr r', w')
              /\ r' = me_success (select_me u)
              /\ status r' = 200
              /\ get (body r') "user" = Some shown
              /\ get shown "id" = Some (VStr (id u))
              /\ get shown "email" = Some (VStr (email u)))
        /\ ((forall x, In x (users w') -> id x <> id u) ->
            Me.GET env req' w' = (inr Me.not_found, w')))
  /\ (forall req0 w0,
         exists r0 w0',
           LoginTheirs.POST req0 w0 = (inr r0, w0')
           /\ get (body r0) "token" = None).
Proof.
  intros Hwf Hin Hreq Hcred Hpw Hfault Hwf' Hfault' [decoded [Hvalid Hid]].
  split; [ | intros req0; apply login_theirs_no_token].
  eexists. eexists.
  split; [apply (login_head_succeeds env req w u pw); assumption | ].
  split; [reflexivity | ]. split; [reflexivity | ].
  split; [reflexivity | ].
  intros req' Hreq'.
  pose proof (me_with_payload env req' w' _ decoded (id u)
                              Hreq' Hvalid Hid Hfault') as Hme.
  split; [ | split].
  - intros u' Hin' Hsame. rewrite Hme, <- Hsame.
    rewrite (find_id_unique _ _ (proj1 Hwf') Hin'). reflexivity.
  - intros Hin'. exists (me_success (select_me u)), (select_me u).
    rewrite Hme, (find_id_unique _ _ (proj1 Hwf') Hin'). repeat split.
  - intros Hnone. rewrite Hme, (find_id_none _ _ Hnone). reflexivity.
Qed.

(** *** How the sibling routes treat the same situations *)

(** With the lookup failing, login (first side) shows the error text in
    development only; in any other mode the body is the fixed message. *)
Lemma login_head_lookup_failure {L : Collaborators} (env : ProcessEnv)
      (req : Request) (w : World) (e p err : string) :
  login_request req e p -> well_formed_credentials e p ->
  fault w FindUniqueByEmail = Some err ->
  exists r w',
    LoginHead.POST env req w = (inr r, w')
    /\ status r = 500
    /\ get (body r) "message" = Some (VStr "Internal server error")
    /\ get (body r) "error"
       = if match env_NODE_ENV env with
            | Some mode => mode == "development"
            | None => false
            end
         then Some (VStr err) else None.
Proof.
  intros [b [Hb [He Hp]]] [Hemail [Hne Hpne]] Hfault.
  unfold LoginHead.POST, try_catch, bind, request_json. rewrite Hb.
  unfold ret at 1.
  rewrite (safeParse_accepts b e p He Hp Hemail Hpne).
  unfold Prisma.findUnique_email. rewrite Hfault. cbn.
  eexists. eexists. split; [reflexivity | ].
  destruct (env_NODE_ENV env) as [mode | ];
    [destruct (mode == "development") | ]; repeat split.
Qed.

(** With the lookup failing, login (second side) answers a fixed body. *)
Lemma login_theirs_lookup_failure {L : Collaborators}
      (req : Request) (w : World) (e p err : string) :
  login_request req e p -> well_formed_credentials e p ->
  fault w FindUniqueByEmail = Some err ->
  exists w',
    LoginTheirs.POST req w
    = (inr (NextResponse_json
              (VObj [("error", VStr "Internal server error")]) 500), w').
Proof.
  intros [b [Hb [He Hp]]] [Hemail [Hne Hpne]] Hfault.
  destruct (get_is_object _ _ _ He) as [fields [-> He']].
  unfold LoginTheirs.POST, try_catch, bind, request_json. rewrite Hb.
  unfold ret at 1, destructure, ret at 1.
  rewrite He, Hp, (truthy_string e Hne), (truthy_string p Hpne).
  unfold Prisma.findUnique_email. cbn [negb orb]. cbv beta iota.
  rewrite Hfault. cbn. eexists. reflexivity.
Qed.

(** With the lookup failing, "who am I" answers a fixed body. *)
Lemma me_lookup_failure {L : Collaborators} (env : ProcessEnv)
      (req : Request) (w : World) (token : string) (decoded : value)
      (i err : string) :
  bearer_request req token ->
  jwt_verify token (JWT_SECRET env) (now w) = inr decoded ->
  get decoded "id" = Some (VStr i) ->
  fault w FindUniqueById = Some err ->
  exists w',
    Me.GET env req w
    = (inr (NextResponse_json
              (VObj [ ("success", VBool false);
                      ("message", VStr "Internal server error") ]) 500), w').
Proof.
  intros Hreq Hv Hid Hfault.
  destruct (get_is_object _ _ _ Hid) as [fields [-> Hid']].
  unfold Me.GET, try_catch, bind at 1 2.
  rewrite (verifyToken_accepts env req w token _ Hreq Hv).
  cbn [truthy negb]. cbv beta iota. rewrite Hid.
  unfold bind, Prisma.findUnique_id_select. rewrite Hfault. cbn.
  eexists. reflexivity.
Qed.

(** Login (first side) refuses an email that is not an address: the
    account signup created for it cannot be used there. *)
Lemma login_head_rejects_malformed_email {L : Collaborators}
      (env : ProcessEnv) (req : Request) (w : World) (e p : string) :
  login_request req e p -> is_email e = false ->
  exists r, LoginHead.POST env req w = (inr r, w)
            /\ status r = 400
            /\ get (body r) "message" = Some (VStr "Validation failed").
Proof.
  intros [b [Hb [He Hp]]] Hemail.
  destruct (get_is_object _ _ _ He) as [fields [-> He']].
  simpl in Hp.
  unfold LoginHead.POST, try_catch, bind, request_json. rewrite Hb.
  unfold ret at 1, Zod.loginSchema_safeParse. rewrite He', Hp.
  unfold Zod.parse_email. rewrite Hemail.
  destruct (Zod.parse_password (Some (VStr p)));
    eexists; repeat split.
Qed.

(** *** The table's constraints are an invariant *)

Section Invariants.
Context {A B : Type}.

Lemma preserves_ret (a : A) (I : World -> Prop) : preserves (ret a) I.
Proof. intros w H. exact H. Qed.

Lemma preserves_throw (e : Exn) (I : World -> Prop) :
  preserves (@throw A e) I.
Proof. intros w H. exact H. Qed.

Lemma preserves_bind (c : M A) (k : A -> M B) (I : World -> Prop) :
  preserves c I -> (forall a, preserves (k a) I) -> preserves (bind c k) I.
Proof.
  intros Hc Hk w H. unfold bind. specialize (Hc w H).
  destruct (c w) as [[e | a] w']; simpl in *.
  - exact Hc.
  - apply Hk. exact Hc.
Qed.

Lemma preserves_try_catch (c : M A) (h : Exn -> M A) (I : World -> Prop) :
  preserves c I -> (forall e, preserves (h e) I) ->
  preserves (try_catch c h) I.
Proof.
  intros Hc Hh w H. unfold try_catch. specialize (Hc w H).
  destruct (c w) as [[e | a] w']; simpl in *.
  - apply Hh. exact Hc.
  - exact Hc.
Qed.

(** A computation that leaves the table alone preserves whatever is
    said about the table only. *)
Lemma read_only_preserves (c : M A) (P : list User -> Prop) :
  read_only c -> preserves c (fun w => P (users w)).
Proof. intros Hc w H. rewrite (Hc w). exact H. Qed.

Lemma read_only_bind (c : M A) (k : A -> M B) :
  read_only c -> (forall a, read_only (k a)) -> read_only (bind c k).
Proof.
  intros Hc Hk w. unfold bind. specialize (Hc w).
  destruct (c w) as [[e | a] w']; simpl in *.
  - exact Hc.
  - rewrite (Hk a w'). exact Hc.
Qed.

Lemma read_only_try_catch (c : M A) (h : Exn -> M A) :
  read_only c -> (forall e, read_only (h e)) -> read_only (try_catch c h).
Proof.
  intros Hc Hh w. unfold try_catch. specialize (Hc w).
  destruct (c w) as [[e | a] w']; simpl in *.
  - rewrite (Hh e w'). exact Hc.
  - exact Hc.
Qed.

Lemma read_only_ret (a : A) : read_only (ret a).
Proof. intros w. reflexivity. Qed.

Lemma read_only_throw (e : Exn) : read_only (@throw A e).
Proof. intros w. reflexivity. Qed.
End Invariants.

Lemma read_only_console_error (tag : string) (e : Exn) :
  read_only (console_error tag e).
Proof. intros w. reflexivity. Qed.

Lemma read_only_draw : read_only draw.
Proof. intros w. reflexivity. Qed.

Lemma read_only_findUnique_email (e : option value) :
  read_only (Prisma.findUnique_email e).
Proof.
  intros w. unfold Prisma.findUnique_email.
  destruct e as [[ | | | s | | | ] | ]; try reflexivity.
  destruct (fault w FindUniqueByEmail); reflexivity.
Qed.

Lemma read_only_findUnique_id (i : option value) :
  read_only (Prisma.findUnique_id_select i).
Proof.
  intros w. unfold Prisma.findUnique_id_select.
  destruct i as [[ | | | s | | | ] | ]; try reflexivity.
  destruct (fault w FindUniqueById); reflexivity.
Qed.

Create HintDb readers.

#[local] Hint Resolve read_only_ret read_only_throw read_only_console_error
  read_only_draw read_only_findUnique_email read_only_findUnique_id
  : readers.

Ltac read_only_step :=
  first [ apply read_only_try_catch; [ | intros ? ]
        | apply read_only_bind; [ | intros ? ]
        | solve [ auto with readers ] ].

(** Login never writes to the table. *)
Lemma login_head_read_only {L : Collaborators} (env : ProcessEnv)
      (req : Request) :
  read_only (LoginHead.POST env req).
Proof.
  unfold LoginHead.POST. apply read_only_try_catch.
  - apply read_only_bind.
    + unfold request_json. destruct (req_body req); auto with readers.
    + intros b. destruct (Zod.loginSchema_safeParse b) as [errs | [e p]];
        [auto with readers | ].
      apply read_only_bind; [auto with readers | ].
      intros [u | ]; [ | auto with readers].
      destruct (negb (bcrypt_compare p (password u))); [auto with readers | ].
      apply read_only_bind; [intros w; reflexivity | auto with readers].
  - intros e. repeat read_only_step.
Qed.

Lemma login_theirs_read_only {L : Collaborators} (req : Request) :
  read_only (LoginTheirs.POST req).
Proof.
  unfold LoginTheirs.POST. apply read_only_try_catch.
  - apply read_only_bind.
    + unfold request_json. destruct (req_body req); auto with readers.
    + intros b0. apply read_only_bind.
      * unfold destructure. destruct b0; auto with readers.
      * intros b.
        destruct (negb (truthy (get b "email"))
                  || negb (truthy (get b "password")));
          [auto with readers | ].
        apply read_only_bind; [auto with readers | ].
        intros [u | ]; [ | auto with readers].
        apply read_only_bind.
        -- unfold LoginTheirs.bcrypt_compare_call.
           destruct (get b "password") as [[ | | | s | | | ] | ];
             auto with readers.
        -- intros ok. destruct (negb ok); [auto with readers | ].
           apply read_only_bind; [ | auto with readers].
           intros w. unfold LoginTheirs.login.
           destruct (session_login (userWithoutPassword u) (now w));
             reflexivity.
  - intros e. repeat read_only_step.
Qed.

(** "Who am I" never writes to the table. *)
Lemma me_read_only {L : Collaborators} (env : ProcessEnv) (req : Request) :
  read_only (Me.GET env req).
Proof.
  unfold Me.GET. apply read_only_try_catch.
  - apply read_only_bind.
    + intros w. destruct (verifyToken_total env req w) as [p Hp].
      rewrite Hp. reflexivity.
    + intros [p | ]; [ | auto with readers].
      destruct (negb (truthy (Some p))); [auto with readers | ].
      apply read_only_bind; [auto with readers | ].
      intros [row | ]; auto with readers.
  - intros e. repeat read_only_step.
Qed.

Lemma existsb_email_not_in (l : list User) (e : string) :
  existsb (Prisma.by_email e) l = false -> ~ In e (map email l).
Proof.
  intros H Hin. apply in_map_iff in Hin. destruct Hin as [u [He Hu]].
  assert (Ht : existsb (Prisma.by_email e) l = true).
  { apply existsb_exists. exists u. split; [exact Hu | ].
    unfold Prisma.by_email. apply String.eqb_eq. exact He. }
  congruence.
Qed.

Lemma existsb_id_not_in (l : list User) (i : string) :
  existsb (Prisma.by_id i) l = false -> ~ In i (map id l).
Proof.
  intros H Hin. apply in_map_iff in Hin. destruct Hin as [u [Hi Hu]].
  assert (Ht : existsb (Prisma.by_id i) l = true).
  { apply existsb_exists. exists u. split; [exact Hu | ].
    unfold Prisma.by_id. apply String.eqb_eq. exact Hi. }
  congruence.
Qed.

Lemma NoDup_snoc {X} (l : list X) (x : X) :
  NoDup l -> ~ In x l -> NoDup (l ++ [x]).
Proof.
  intros Hnd Hx. apply NoDup_app.
  - exact Hnd.
  - constructor; [intros [] | constructor].
  - intros a Ha [<- | []]. exact (Hx Ha).
Qed.

(** [create] refuses a row that would break the primary key or the unique
    index, so the constraints survive it. *)
Lemma create_preserves_wf (d : Prisma.CreateData) :
  preserves (Prisma.create d) (fun w => wf_users (users w)).
Proof.
  intros w Hwf. unfold Prisma.create.
  destruct (Prisma.typecheck d) as [[[[e fn] r] dob] | ]; [ | exact Hwf].
  unfold bind, Prisma.check_fault, draw, get_world.
  destruct (fault w Create); [exact Hwf | ].
  cbn [users fault now rng rng_pos log].
  destruct (existsb (Prisma.by_email e) (users w)) eqn:He; [exact Hwf | ].
  destruct (existsb (Prisma.by_id (rng w (rng_pos w))) (users w)) eqn:Hi;
    [exact Hwf | ].
  destruct Hwf as [Hids Hemails].
  unfold Prisma.insert. cbn [snd users].
  split; rewrite map_app; apply NoDup_snoc; cbn [map id email];
    auto using existsb_id_not_in, existsb_email_not_in.
Qed.

(** Signup keeps ids and emails unique. *)
Lemma signup_preserves_wf {L : Collaborators} (req : Request) :
  preserves (Signup.POST req) (fun w => wf_users (users w)).
Proof.
  pose (P := fun l : list User => wf_users l).
  assert (Hro : forall X (c : M X), read_only c ->
                                    preserves c (fun w => wf_users (users w))).
  { intros X c Hc. exact (read_only_preserves c P Hc). }
  unfold Signup.POST. apply preserves_try_catch.
  - apply preserves_bind.
    { apply Hro. unfold request_json.
      destruct (req_body req); auto with readers. }
    intros b0. apply preserves_bind.
    { apply Hro. unfold destructure. destruct b0; auto with readers. }
    intros b.
    destruct (negb (truthy (get b "email")) || negb (truthy (get b "password"))
              || negb (truthy (get b "role"))).
    { apply preserves_ret. }
    apply preserves_bind; [apply Hro; auto with readers | ].
    intros [existing | ]; [apply preserves_ret | ].
    apply preserves_bind.
    { apply Hro. unfold Signup.bcrypt_hash_call.
      destruct (get b "password") as [[ | | | s | | | ] | ];
        auto with readers. }
    intros h. apply preserves_bind; [apply create_preserves_wf | ].
    intros u. apply preserves_ret.
  - intros e. apply Hro. repeat read_only_step.
Qed.

(** *** The handler printed in the guide tells the two failures apart *)

Lemma authentication_md_login_distinguishes {L : Collaborators}
      (env : ProcessEnv) (error_json : Exn -> value)
      (req1 req2 : Request) (w : World) (e1 p1 e2 p2 : string) :
  login_request req1 e1 p1 -> login_request req2 e2 p2 ->
  fault w FindUniqueByEmail = None ->
  no_user_with_email w e1 ->
  wrong_password_for w e2 p2 ->
  AuthenticationMd.POST env error_json req1 w
  = (inr AuthenticationMd.user_not_found, w)
  /\ AuthenticationMd.POST env error_json req2 w
     = (inr AuthenticationMd.invalid_credentials, w)
  /\ status AuthenticationMd.user_not_found = 404
  /\ status AuthenticationMd.invalid_credentials = 401.
Proof.
  intros [b1 [Hb1 [He1 Hp1]]] [b2 [Hb2 [He2 Hp2]]] Hfault Hnone
         [Hsome Hwrong].
  destruct (find_email_some _ _ Hsome) as [u [Hfind [Hin Hu]]].
  assert (Hn1 : b1 <> VNull) by (intros ->; discriminate He1).
  assert (Hn2 : b2 <> VNull) by (intros ->; discriminate He2).
  repeat split.
  - unfold AuthenticationMd.POST, try_catch, bind, request_json.
    rewrite Hb1. unfold ret at 1. rewrite (destructure_ok b1 w Hn1), He1.
    unfold Prisma.findUnique_email.
    rewrite Hfault, (find_email_none _ _ Hnone). reflexivity.
  - unfold AuthenticationMd.POST, try_catch, bind, request_json.
    rewrite Hb2. unfold ret at 1. rewrite (destructure_ok b2 w Hn2), He2.
    unfold Prisma.findUnique_email. rewrite Hfault, Hfind, Hp2.
    unfold AuthenticationMd.bcrypt_compare_call, ret at 1.
    rewrite (Hwrong u Hin Hu). reflexivity.
Qed.

(* ================================================================== *)
(** ** The handlers on concrete requests *)
(* ================================================================== *)

Module Runs.
Import Reference.

(** The example of the spec: signup, login, "who am I". *)
Example signup_alice :
  signup (post alice) w0
  = (inr (NextResponse_json (userWithoutPassword alice_row) 201), w1).
Proof. vm_compute. reflexivity. Qed.

Example login_alice :
  exists r, login_head (post alice) w1 = (inr r, w1)
            /\ status r = 200
            /\ get (body r) "token" = Some (VStr alice_token).
Proof. eexists. vm_compute. repeat split. Qed.

Example me_alice :
  me (bearer alice_token) w1_later
  = (inr (me_success (select_me alice_row)), w1_later).
Proof. vm_compute. reflexivity. Qed.

Example signup_null_body :
  exists r w', signup (post VNull) w0 = (inr r, w')
               /\ status r = 500
               /\ get (body r) "details"
                  = Some (VStr "TypeError: Cannot destructure property 'email' of 'body' as it is null.").
Proof. eexists. eexists. vm_compute. repeat split. Qed.

(** A signup whose email is no address is stored all the same, and the
    login route then refuses that email. *)
Example signup_bad_email :
  exists w', signup (post bad_email) w0
             = (inr (NextResponse_json (userWithoutPassword bad_email_row)
                                       201), w')
             /\ users w' = [bad_email_row].
Proof. eexists. vm_compute. split; reflexivity. Qed.

Example login_bad_email :
  exists r w', login_head (post bad_email)
                          (mkWorld [bad_email_row] no_fault 1000000 ids 2 [])
               = (inr r, w')
               /\ status r = 400.
Proof. eexists. eexists. vm_compute. split; reflexivity. Qed.

Lemma w1_wf : wf_users (users w1).
Proof.
  split; simpl; constructor; simpl; try tauto; constructor.
Qed.
End Runs.

(** C6 (counterexample).  Alice's token is valid: in an [Authorization:
    Bearer] header it is answered 200 with her user.  The same token in
    the [session] cookie, with no [Authorization] header, is answered
    401. *)
Lemma C6_session_cookie_rejected :
  Reference.me (Reference.bearer Reference.alice_token) Reference.w1
  = (inr (me_success (select_me Reference.alice_row)), Reference.w1)
  /\ Reference.me (Reference.with_cookie Reference.alice_token) Reference.w1
     = (inr Me.unauthorized, Reference.w1)
  /\ status Me.unauthorized = 401.
Proof. vm_compute. repeat split. Qed.

(** C9 (counterexample).  A signup with an email and a password and no
    role, on an empty database, does not proceed: the answer is 400
    "Missing required fields", not 201, and the table stays empty. *)
Lemma C9_role_is_required :
  Reference.signup (Reference.post Reference.no_role) Reference.w0
  = (inr missing_fields_response, Reference.w0)
  /\ status missing_fields_response = 400
  /\ status missing_fields_response <> 201
  /\ users Reference.w0 = [].
Proof.
  split; [vm_compute; reflexivity | ].
  split; [reflexivity | ].
  split; [discriminate | reflexivity].
Qed.

(* ================================================================== *)
(** ** The theorems at concrete inputs *)
(* ================================================================== *)



(** C3 at a concrete input: Alice signs up while the database cannot be reached. *)
Lemma C3_witness :
  exists r w',
    Signup.POST (L := Reference.collaborators)
      (Reference.post Reference.alice) Reference.w1_down = (inr r, w')
    /\ status r = 500
    /\ body r = VObj [ ("error", VStr "Something went wrong");
                       ("details", VStr Reference.db_error) ]
    /\ mentions_text Reference.db_error (body r) = true.
Proof.
  apply (C3_signup_error_exposes_details
           Reference.collaborators (Reference.post Reference.alice)
           Reference.w1_down Reference.alice "a@b.com" Reference.db_error).
  - reflexivity.
  - reflexivity.
  - repeat split.
  - reflexivity.
Defined.

(** C4 at a concrete input: Alice signs up a second time. *)
Lemma C4_witness :
  (exists r w',
      Signup.POST (L := Reference.collaborators)
        (Reference.post Reference.alice) Reference.w1 = (inr r, w')
      /\ status r <> 201
      /\ users w' = users Reference.w1
      /\ In Reference.alice_row (users w'))
  /\ Signup.POST (L := Reference.collaborators)
       (Reference.post Reference.alice) Reference.w1
     = (inr conflict_response, Reference.w1)
  /\ status conflict_response = 400
  /\ body conflict_response = VObj [("error", VStr "User already exists")].
Proof.
  assert (Hin : In Reference.alice_row (users Reference.w1))
    by (left; reflexivity).
  split.
  - apply (proj1 (C4_duplicate_email_conflict
                    Reference.collaborators (Reference.post Reference.alice)
                    Reference.w1 Reference.alice Reference.alice_row
                    Hin eq_refl eq_refl)).
  - apply (proj2 (C4_duplicate_email_conflict
                    Reference.collaborators (Reference.post Reference.alice)
                    Reference.w1 Reference.alice Reference.alice_row
                    Hin eq_refl eq_refl)).
    + repeat split.
    + reflexivity.
Defined.

(** C5 at a concrete input: Alice logs in and presents her token a
    thousand seconds later, when the row stored under her id has another
    email than the one her token carries. *)
Lemma C5_witness :
  exists token r,
    LoginHead.POST (L := Reference.collaborators) Reference.env
      (Reference.post Reference.alice) Reference.w1 = (inr r, Reference.w1)
    /\ status r = 200
    /\ get (body r) "token" = Some (VStr token)
    /\ Me.GET (L := Reference.collaborators) Reference.env
         (Reference.bearer token) Reference.w1_renamed
       = (inr (me_success (select_me Reference.alice_renamed)),
          Reference.w1_renamed).
Proof.
  destruct (C5_login_token_round_trip
              Reference.collaborators Reference.env
              (Reference.post Reference.alice)
              Reference.w1 Reference.w1_renamed Reference.alice_row
              "secret123")
    as [[token [r [Hlogin [Hstatus [Htoken [_ Hme]]]]]] _].
  - exact Runs.w1_wf.
  - left. reflexivity.
  - eexists. repeat split.
  - repeat split; discriminate.
  - reflexivity.
  - reflexivity.
  - split; simpl; constructor; simpl; try tauto; constructor.
  - reflexivity.
  - eexists. split; [vm_compute; reflexivity | reflexivity].
  - exists token, r. repeat split; try assumption.
    apply (proj1 (Hme (Reference.bearer token) eq_refl)
                 Reference.alice_renamed).
    + left. reflexivity.
    + reflexivity.
Defined.

(** C6 at a concrete input: Alice's token in a bearer header, and in a session cookie. *)
Lemma C6_witness :
  (Me.GET (L := Reference.collaborators) Reference.env
     (Reference.bearer Reference.alice_token) Reference.w1
   = (inr (me_success (select_me Reference.alice_row)), Reference.w1)
   /\ status (me_success (select_me Reference.alice_row)) = 200)
  /\ (Me.GET (L := Reference.collaborators) Reference.env
        (Reference.with_cookie Reference.alice_token) Reference.w1
      = (inr Me.unauthorized, Reference.w1)
      /\ status Me.unauthorized = 401).
Proof.
  split.
  - apply (proj1 (C6_bearer_header_only
                    Reference.collaborators Reference.env
                    (Reference.bearer Reference.alice_token) Reference.w1)
                 Reference.alice_token
                 (VObj [ ("id", VStr "user-1"); ("email", VStr "a@b.com");
                         ("role", VStr "LEARNER");
                         ("iat", VNum 1000); ("exp", VNum 605800) ])
                 Reference.alice_row).
    + reflexivity.
    + vm_compute. reflexivity.
    + reflexivity.
    + apply Runs.w1_wf.
    + left. reflexivity.
    + reflexivity.
  - apply (proj2 (C6_bearer_header_only
                    Reference.collaborators Reference.env
                    (Reference.with_cookie Reference.alice_token)
                    Reference.w1)).
    reflexivity.
Defined.

(** C7 at a concrete input: Alice's token presented eight days after it was issued. *)
Lemma C7_witness :
  Me.GET (L := Reference.collaborators) Reference.env
    (Reference.bearer Reference.alice_token) Reference.w1_expired
  = (inr Me.unauthorized, Reference.w1_expired)
  /\ status Me.unauthorized = 401.
Proof.
  apply (proj2 (C7_rejected_token_unauthorized
                  Reference.collaborators Reference.env
                  (Reference.bearer Reference.alice_token)
                  Reference.w1_expired)).
  right. right.
  exists ("Bearer " ++ Reference.alice_token)%string, TokenExpiredError.
  split; [reflexivity | ]. split; vm_compute; reflexivity.
Defined.

(** C8 at a concrete input: Alice's token presented to a server whose table is empty. *)
Lemma C8_witness :
  Me.GET (L := Reference.collaborators) Reference.env
    (Reference.bearer Reference.alice_token) Reference.w0
  = (inr Me.not_found, Reference.w0)
  /\ status Me.not_found = 404
  /\ get (body Me.not_found) "success" = Some (VBool false).
Proof.
  apply (C8_valid_token_unknown_user_not_found
           Reference.collaborators Reference.env
           (Reference.bearer Reference.alice_token) Reference.w0
           Reference.alice_token
           (VObj [ ("id", VStr "user-1"); ("email", VStr "a@b.com");
                   ("role", VStr "LEARNER");
                   ("iat", VNum 1000); ("exp", VNum 605800) ])
           "user-1").
  - reflexivity.
  - vm_compute. reflexivity.
  - reflexivity.
  - intros u [].
  - reflexivity.
Defined.

(** C9 at a concrete input: a signup without a role. *)
Lemma C9_witness :
  Signup.POST (L := Reference.collaborators)
    (Reference.post Reference.no_role) Reference.w1
  = (inr missing_fields_response, Reference.w1)
  /\ status missing_fields_response = 400.
Proof.
  apply (C9_signup_without_role_rejected
           Reference.collaborators (Reference.post Reference.no_role)
           Reference.w1 Reference.no_role); reflexivity.
Defined.

(** C10 at a concrete input: a signup whose email is not an address, on an empty table. *)
Lemma C10_witness :
  exists resp w',
    Signup.POST (L := Reference.collaborators)
      (Reference.post Reference.bad_email) Reference.w0 = (inr resp, w')
    /\ status resp = 201
    /\ get (body resp) "email" = Some (VStr "not-an-email")
    /\ users w'
       = (users Reference.w0
            ++ [signup_row (L := Reference.collaborators) Reference.w0
                           "not-an-email" "secret123" "LEARNER"])%list
    /\ email (signup_row (L := Reference.collaborators) Reference.w0
                         "not-an-email" "secret123" "LEARNER")
       = "not-an-email".
Proof.
  apply (C10_signup_accepts_malformed_email
           Reference.collaborators (Reference.post Reference.bad_email)
           Reference.w0 Reference.bad_email
           "not-an-email" "secret123" "LEARNER");
    try reflexivity; try discriminate.
  - intros op. reflexivity.
  - intros u [].
  - intros u [].
Defined.

(* ================================================================== *)
(** ** Further properties of the routes *)
(* ================================================================== *)

(** Walk through a handler body, one bind or branch at a time, and leave
    [leaf] to settle what each [ret] returns. *)
Ltac post_walk leaf :=
  repeat match goal with
         | |- post (ret _) _ => apply post_ret; leaf
         | |- post (throw _) _ => apply post_throw
         | |- post (bind _ _) _ => apply post_bind; intros ?
         | |- post (match ?x with _ => _ end) _ => destruct x eqn:?
         end.

Ltac status_leaf := cbn; tauto.

(** X1.  The status of every answer lies in the route's own short list:
    signup answers 201, 400 or 500; login (either side) 200, 400, 401 or
    500; "who am I" 200, 401, 404 or 500.  This holds for every request,
    state and library behaviour. *)
Theorem X1_status_codes
        (L : Collaborators) (env : ProcessEnv) (req : Request) (w : World) :
  (exists r w', Signup.POST req w = (inr r, w')
                /\ In (status r) [201; 400; 500])
  /\ (exists r w', LoginHead.POST env req w = (inr r, w')
                   /\ In (status r) [200; 400; 401; 500])
  /\ (exists r w', LoginTheirs.POST req w = (inr r, w')
                   /\ In (status r) [200; 400; 401; 500])
  /\ (exists r w', Me.GET env req w = (inr r, w')
                   /\ In (status r) [200; 401; 404; 500]).
Proof.
  repeat split.
  - revert w. change (total (Signup.POST req)
                            (fun r => In (status r) [201; 400; 500])).
    unfold Signup.POST. apply total_try_catch.
    + post_walk status_leaf.
    + intros e. apply total_log_then_ret. status_leaf.
  - revert w. change (total (LoginHead.POST env req)
                            (fun r => In (status r) [200; 400; 401; 500])).
    unfold LoginHead.POST. apply total_try_catch.
    + post_walk status_leaf.
    + intros e. apply total_log_then_ret. status_leaf.
  - revert w. change (total (LoginTheirs.POST req)
                            (fun r => In (status r) [200; 400; 401; 500])).
    unfold LoginTheirs.POST. apply total_try_catch.
    + post_walk status_leaf.
    + intros e. apply total_log_then_ret. status_leaf.
  - revert w. change (total (Me.GET env req)
                            (fun r => In (status r) [200; 401; 404; 500])).
    unfold Me.GET. apply total_try_catch.
    + post_walk status_leaf.
    + intros e. apply total_log_then_ret. status_leaf.
Qed.

Ltac not_500_leaf := cbn; intros Hstatus; discriminate Hstatus.

(** X2.  What a 500 answer says.  On the second side of the login route
    and on "who am I", every 500 answer has one fixed body, whatever was
    thrown.  On the first side of the login route the body carries the
    error text under [error] exactly when [NODE_ENV] is [development];
    in every other mode (unset included) it is the fixed two-field
    body. *)
Theorem X2_server_error_bodies
        (L : Collaborators) (env : ProcessEnv) (req : Request) (w : World) :
  (exists r w',
      LoginTheirs.POST req w = (inr r, w')
      /\ (status r = 500 ->
          body r = VObj [("error", VStr "Internal server error")]))
  /\ (exists r w',
         Me.GET env req w = (inr r, w')
         /\ (status r = 500 ->
             body r = VObj [ ("success", VBool false);
                             ("message", VStr "Internal server error") ]))
  /\ (exists r w',
         LoginHead.POST env req w = (inr r, w')
         /\ (status r = 500 ->
             get (body r) "message" = Some (VStr "Internal server error")
             /\ (env_NODE_ENV env = Some "development" ->
                 exists text, get (body r) "error" = Some (VStr text))
             /\ (env_NODE_ENV env <> Some "development" ->
                 body r = VObj [ ("success", VBool false);
                                 ("message",
                                  VStr "Internal server error") ]))).
Proof.
  repeat split.
  - revert w.
    change (total (LoginTheirs.POST req)
                  (fun r => status r = 500 ->
                            body r
                            = VObj [("error", VStr "Internal server error")])).
    unfold LoginTheirs.POST. apply total_try_catch.
    + post_walk not_500_leaf.
    + intros e. apply total_log_then_ret. reflexivity.
  - revert w.
    change (total (Me.GET env req)
                  (fun r => status r = 500 ->
                            body r
                            = VObj [ ("success", VBool false);
                                     ("message",
                                      VStr "Internal server error") ])).
    unfold Me.GET. apply total_try_catch.
    + post_walk not_500_leaf.
    + intros e. apply total_log_then_ret. reflexivity.
  - revert w.
    change (total (LoginHead.POST env req)
                  (fun r =>
                     status r = 500 ->
                     get (body r) "message"
                     = Some (VStr "Internal server error")
                     /\ (env_NODE_ENV env = Some "development" ->
                         exists text, get (body r) "error" = Some (VStr text))
                     /\ (env_NODE_ENV env <> Some "development" ->
                         body r
                         = VObj [ ("success", VBool false);
                                  ("message",
                                   VStr "Internal server error") ]))).
    unfold LoginHead.POST. apply total_try_catch.
    + post_walk not_500_leaf.
    + intros e. apply total_log_then_ret. intros _.
      destruct (env_NODE_ENV env) as [mode | ].
      * destruct (String.eqb_spec mode "development") as [-> | Hne].
        -- repeat split. ++ intros _. exists e. reflexivity.
           ++ intros H. contradiction H. reflexivity.
        -- repeat split. intros H. injection H as H. contradiction.
      * repeat split. intros H. discriminate H.
Qed.

(** X3.  Login (either side) and "who am I" never write to the user
    table: after any request, answered or failed, the table is the one
    they found. *)
Theorem X3_login_and_me_leave_table
        (L : Collaborators) (env : ProcessEnv) (req : Request) (w : World) :
  users (snd (LoginHead.POST env req w)) = users w
  /\ users (snd (LoginTheirs.POST req w)) = users w
  /\ users (snd (Me.GET env req w)) = users w.
Proof.
  repeat split.
  - apply login_head_read_only.
  - apply login_theirs_read_only.
  - apply me_read_only.
Qed.

(** What [create] leaves behind: on success exactly one row, appended,
    built from the arguments; on failure nothing. *)
Lemma create_outcome (d : Prisma.CreateData) (w : World) :
  match Prisma.create d w with
  | (inr u, w') =>
      users w' = (users w ++ [u])%list
      /\ Prisma.d_email d = Some (VStr (email u))
      /\ Prisma.d_role d = Some (VStr (role u))
      /\ password u = Prisma.d_password d
      /\ id u = rng w (rng_pos w)
      /\ createdAt u = now w
      /\ existsb (Prisma.by_email (email u)) (users w) = false
  | (inl _, w') => users w' = users w
  end.
Proof.
  unfold Prisma.create.
  destruct (Prisma.typecheck d) as [[[[e fn] r] dob] | ] eqn:Htc;
    [ | reflexivity].
  unfold Prisma.typecheck in Htc.
  destruct (Prisma.d_email d) as [[ | | | e' | | | ] | ]; try discriminate Htc.
  destruct (Prisma.d_role d) as [[ | | | r' | | | ] | ]; try discriminate Htc.
  destruct (Prisma.optional_string (Prisma.d_fullName d));
    try discriminate Htc.
  destruct (Prisma.optional_date (Prisma.d_dateOfBirth d));
    try discriminate Htc.
  injection Htc as -> -> -> ->.
  unfold bind, Prisma.check_fault, draw, get_world.
  destruct (fault w Create); [reflexivity | ].
  cbn [users fault now rng rng_pos log].
  destruct (existsb (Prisma.by_email e) (users w)) eqn:He; [reflexivity | ].
  destruct (existsb (Prisma.by_id (rng w (rng_pos w))) (users w));
    [reflexivity | ].
  unfold Prisma.insert. cbn. repeat split. exact He.
Qed.

Lemma existsb_email_none (l : list User) (e : string) :
  existsb (Prisma.by_email e) l = false ->
  forall u, In u l -> email u <> e.
Proof.
  intros H u Hin He. apply (existsb_email_not_in l e H).
  rewrite <- He. apply in_map. exact Hin.
Qed.

(** X4.  Signup is all or nothing.  Either it answers 201, and then the
    body named a string email no user had and a string password, exactly
    one row was appended to the table, with that email and with the
    bcrypt hash (cost 10) of that password in its [password] column, and
    the answer is that row without the column; or it answers something
    else and the table is unchanged. *)
Theorem X4_signup_all_or_nothing
        (L : Collaborators) (req : Request) (w : World) :
  exists r w',
    Signup.POST req w = (inr r, w')
    /\ ((status r = 201
         /\ exists b e pw u,
             req_body req = Some b
             /\ get b "email" = Some (VStr e)
             /\ get b "password" = Some (VStr pw)
             /\ no_user_with_email w e
             /\ users w' = (users w ++ [u])%list
             /\ email u = e
             /\ password u = bcrypt_hash pw 10 (rng w (rng_pos w))
             /\ body r = userWithoutPassword u)
        \/ (status r <> 201 /\ users w' = users w)).
Proof.
  assert (Hfail : forall (e : Exn) (w1 : World),
             users w1 = users w ->
             exists r w',
               (let (s, w'0) := console_error "Signup error:" e w1 in
                match s with
                | inl e1 => (inl e1, w'0)
                | inr _ =>
                    ret (NextResponse_json
                           (obj [("error", Some (VStr "Something went wrong"));
                                 ("details", Some (VStr e))]) 500) w'0
                end) = (inr r, w')
               /\ ((status r = 201
                    /\ exists b e pw u,
                        req_body req = Some b
                        /\ get b "email" = Some (VStr e)
                        /\ get b "password" = Some (VStr pw)
                        /\ no_user_with_email w e
                        /\ users w' = (users w ++ [u])%list
                        /\ email u = e
                        /\ password u = bcrypt_hash pw 10 (rng w (rng_pos w))
                        /\ body r = userWithoutPassword u)
                   \/ (status r <> 201 /\ users w' = users w))).
  { intros e w1 Hw1. eexists. eexists. split; [reflexivity | ].
    right. split; [discriminate | exact Hw1]. }
  unfold Signup.POST, try_catch, bind, request_json.
  destruct (req_body req) as [b | ] eqn:Hb;
    [ | apply Hfail; reflexivity].
  unfold ret at 1.
  destruct (destructure b w) as [[err | b'] w0] eqn:Hd.
  { destruct b; try discriminate Hd. injection Hd as <- <-.
    apply Hfail. reflexivity. }
  assert (b' = b /\ w0 = w) as [-> ->].
  { destruct b; try discriminate Hd; injection Hd as <- <-; auto. }
  destruct (negb (truthy (get b "email")) || negb (truthy (get b "password"))
            || negb (truthy (get b "role"))).
  { eexists. eexists. split; [reflexivity | ].
    right. split; [discriminate | reflexivity]. }
  unfold Prisma.findUnique_email.
  destruct (get b "email") as [[ | | | e | | | ] | ] eqn:He;
    try (apply Hfail; reflexivity).
  destruct (fault w FindUniqueByEmail); [apply Hfail; reflexivity | ].
  destruct (find (Prisma.by_email e) (users w)) as [existing | ] eqn:Hfind.
  { eexists. eexists. split; [reflexivity | ].
    right. split; [discriminate | reflexivity]. }
  unfold Signup.bcrypt_hash_call.
  destruct (get b "password") as [[ | | | pw | | | ] | ] eqn:Hpw;
    try (apply Hfail; reflexivity).
  unfold bind, draw, ret at 1.
  match goal with
  | |- context [Prisma.create ?d ?w1] =>
      pose proof (create_outcome d w1) as Hcreate;
      destruct (Prisma.create d w1) as [[err | u] w2]
  end.
  - apply Hfail. exact Hcreate.
  - cbn [users rng rng_pos now Prisma.d_email Prisma.d_password] in Hcreate.
    destruct Hcreate as [Husers [Hemail [_ [Hpassword _]]]].
    injection Hemail as Hemail.
    eexists. eexists. split; [reflexivity | ].
    left. split; [reflexivity | ].
    exists b, e, pw, u. repeat split; auto.
    intros u' Hin Hu'.
    apply (find_none _ _ Hfind) in Hin.
    unfold Prisma.by_email in Hin. apply String.eqb_neq in Hin. auto.
Qed.

(** *** Signup followed by other requests *)

(** What [create] leaves behind, state and all. *)
Lemma create_state (d : Prisma.CreateData) (w : World) (u : User)
      (w' : World) :
  Prisma.create d w = (inr u, w') ->
  w' = mkWorld (users w ++ [u]) (fault w) (now w) (rng w) (S (rng_pos w))
               (log w)
  /\ Prisma.d_email d = Some (VStr (email u))
  /\ password u = Prisma.d_password d.
Proof.
  unfold Prisma.create.
  destruct (Prisma.typecheck d) as [[[[e fn] r] dob] | ] eqn:Htc;
    [ | discriminate].
  unfold Prisma.typecheck in Htc.
  destruct (Prisma.d_email d) as [[ | | | e' | | | ] | ]; try discriminate Htc.
  destruct (Prisma.d_role d) as [[ | | | r' | | | ] | ]; try discriminate Htc.
  destruct (Prisma.optional_string (Prisma.d_fullName d));
    try discriminate Htc.
  destruct (Prisma.optional_date (Prisma.d_dateOfBirth d));
    try discriminate Htc.
  injection Htc as -> -> -> ->.
  unfold bind, Prisma.check_fault, draw, get_world.
  destruct (fault w Create); [discriminate | ].
  cbn [users fault now rng rng_pos log].
  destruct (existsb (Prisma.by_email e) (users w)); [discriminate | ].
  destruct (existsb (Prisma.by_id (rng w (rng_pos w))) (users w));
    [discriminate | ].
  unfold Prisma.insert. cbn [users fault now rng rng_pos log].
  intros H. injection H as <- <-. repeat split.
Qed.

(** Reading a 201 backwards: what the request and the state were, and
    what the state has become. *)
Lemma signup_created {L : Collaborators} (req : Request) (w : World)
      (r : Response) (w' : World) :
  Signup.POST req w = (inr r, w') -> status r = 201 ->
  exists b e pw u,
    req_body req = Some b
    /\ get b "email" = Some (VStr e)
    /\ get b "password" = Some (VStr pw)
    /\ signup_fields_present b
    /\ fault w FindUniqueByEmail = None
    /\ no_user_with_email w e
    /\ w' = mkWorld (users w ++ [u]) (fault w) (now w) (rng w)
                    (S (S (rng_pos w))) (log w)
    /\ email u = e
    /\ password u = bcrypt_hash pw 10 (rng w (rng_pos w))
    /\ r = NextResponse_json (userWithoutPassword u) 201.
Proof.
  intros H Hst.
  unfold Signup.POST, try_catch, bind, request_json in H.
  destruct (req_body req) as [b | ] eqn:Hb;
    [ | cbn in H; injection H as <- <-; discriminate Hst].
  unfold ret at 1 in H.
  destruct (destructure b w) as [[err | b'] w0] eqn:Hd.
  { cbn in H. injection H as <- <-. discriminate Hst. }
  assert (b' = b /\ w0 = w) as [-> ->].
  { destruct b; try discriminate Hd; injection Hd as <- <-; auto. }
  destruct (negb (truthy (get b "email")) || negb (truthy (get b "password"))
            || negb (truthy (get b "role"))) eqn:Hguard.
  { cbn in H. injection H as <- <-. discriminate Hst. }
  assert (Hpresent : signup_fields_present b).
  { unfold signup_fields_present.
    destruct (truthy (get b "email")), (truthy (get b "password")),
      (truthy (get b "role")); try discriminate Hguard. auto. }
  unfold Prisma.findUnique_email in H.
  destruct (get b "email") as [[ | | | e | | | ] | ] eqn:He;
    try (cbn in H; injection H as <- <-; discriminate Hst).
  destruct (fault w FindUniqueByEmail) eqn:Hfault;
    [cbn in H; injection H as <- <-; discriminate Hst | ].
  destruct (find (Prisma.by_email e) (users w)) as [existing | ] eqn:Hfind.
  { cbn in H. injection H as <- <-. discriminate Hst. }
  unfold Signup.bcrypt_hash_call in H.
  destruct (get b "password") as [[ | | | pw | | | ] | ] eqn:Hpw;
    try (cbn in H; injection H as <- <-; discriminate Hst).
  unfold bind, draw, ret at 1 in H.
  match type of H with
  | context [Prisma.create ?d ?w1] =>
      destruct (Prisma.create d w1) as [[err | u] w2] eqn:Hcreate
  end.
  { cbn in H. injection H as <- <-. discriminate Hst. }
  apply create_state in Hcreate.
  cbn [users fault now rng rng_pos log Prisma.d_email Prisma.d_password]
    in Hcreate.
  destruct Hcreate as [-> [Hemail Hpassword]]. injection Hemail as Hemail.
  cbn in H. injection H as <- <-.
  assert (Hfresh : no_user_with_email w e).
  { intros u' Hin Hu'.
    apply (find_none _ _ Hfind) in Hin.
    unfold Prisma.by_email in Hin. apply String.eqb_neq in Hin. auto. }
  exists b, e, pw, u.
  repeat (split; [first [reflexivity | assumption | symmetry; assumption]
                 | ]).
  reflexivity.
Qed.

(** X5.  A user who has just signed up can log in.  After any signup
    that was answered 201, whatever optional fields it carried, a login
    (first side of the route) with the same email and password is
    answered 200, provided the email is one the login schema accepts and
    bcrypt's comparison accepts the hash bcrypt made.  The answer holds a
    token and, under [user], exactly the body signup answered. *)
Theorem X5_signup_then_login
        (L : Collaborators) (env : ProcessEnv) (req : Request) (w : World)
        (r1 : Response) (w1 : World) (b : value) (e pw : string) :
  Signup.POST req w = (inr r1, w1) ->
  status r1 = 201 ->
  req_body req = Some b ->
  get b "email" = Some (VStr e) ->
  get b "password" = Some (VStr pw) ->
  wf_users (users w) ->
  is_email e = true ->
  bcrypt_compare pw (bcrypt_hash pw 10 (rng w (rng_pos w))) = true ->
  forall req',
    login_request req' e pw ->
    exists r2 token,
      LoginHead.POST env req' w1 = (inr r2, w1)
      /\ status r2 = 200
      /\ get (body r2) "token" = Some (VStr token)
      /\ get (body r2) "user" = Some (body r1).
Proof.
  intros Hsignup Hst Hb He Hpw Hwf Hemail Hbcrypt req' Hreq'.
  pose proof (signup_preserves_wf req w Hwf) as Hwf1.
  rewrite Hsignup in Hwf1. cbn [snd] in Hwf1.
  destruct (signup_created req w r1 w1 Hsignup Hst)
    as [b0 [e0 [pw0 [u [Hb0 [He0 [Hpw0 [Hpresent [Hfault [Hfresh
       [Hw1 [Hue [Hup Hr1]]]]]]]]]]]]].
  rewrite Hb in Hb0. injection Hb0 as <-.
  rewrite He in He0. injection He0 as <-.
  rewrite Hpw in Hpw0. injection Hpw0 as <-.
  destruct Hpresent as [Hte [Htp _]]. rewrite He in Hte. rewrite Hpw in Htp.
  assert (Hne : e <> "") by (intros ->; discriminate Hte).
  assert (Hpwne : pw <> "") by (intros ->; discriminate Htp).
  assert (Hin : In u (users w1)).
  { rewrite Hw1. cbn. apply in_or_app. right. left. reflexivity. }
  subst e. eexists. eexists.
  split; [ | split; [ | split]].
  - apply (login_head_succeeds env req' w1 u pw Hwf1 Hin Hreq').
    + repeat split; assumption.
    + rewrite Hup. exact Hbcrypt.
    + rewrite Hw1. exact Hfault.
  - reflexivity.
  - reflexivity.
  - rewrite Hr1. reflexivity.
Qed.

(** X6.  Signing up twice.  After any signup that was answered 201, the
    table holds exactly one more row, and any further signup naming the
    same email (with a password and a role), the same request sent again
    included, is answered 400 "User already exists" and changes
    nothing. *)
Theorem X6_signup_twice
        (L : Collaborators) (req : Request) (w : World)
        (r1 : Response) (w1 : World) :
  Signup.POST req w = (inr r1, w1) ->
  status r1 = 201 ->
  (exists u, users w1 = (users w ++ [u])%list)
  /\ Signup.POST req w1 = (inr conflict_response, w1)
  /\ forall b e req2 b2,
      req_body req = Some b ->
      get b "email" = Some (VStr e) ->
      req_body req2 = Some b2 ->
      get b2 "email" = Some (VStr e) ->
      signup_fields_present b2 ->
      Signup.POST req2 w1 = (inr conflict_response, w1).
Proof.
  intros Hsignup Hst.
  destruct (signup_created req w r1 w1 Hsignup Hst)
    as [b0 [e0 [pw0 [u [Hb0 [He0 [Hpw0 [Hpresent [Hfault [Hfresh
       [Hw1 [Hue [Hup Hr1]]]]]]]]]]]]].
  assert (Hagain : forall req2 b2,
             req_body req2 = Some b2 ->
             get b2 "email" = Some (VStr e0) ->
             signup_fields_present b2 ->
             Signup.POST req2 w1 = (inr conflict_response, w1)).
  { intros req2 b2 Hb2 He2 Hpresent2.
    destruct (find_email_some (users w1) e0) as [u' [Hfind _]].
    { exists u. split; [ | exact Hue].
      rewrite Hw1. cbn. apply in_or_app. right. left. reflexivity. }
    rewrite (signup_reaches_lookup req2 w1 b2 Hb2 Hpresent2).
    unfold try_catch, bind, Prisma.findUnique_email. rewrite He2.
    assert (Hfault1 : fault w1 FindUniqueByEmail = None)
      by (rewrite Hw1; exact Hfault).
    rewrite Hfault1, Hfind. reflexivity. }
  split; [exists u; rewrite Hw1; reflexivity | ].
  split; [exact (Hagain req b0 Hb0 He0 Hpresent) | ].
  intros b e req2 b2 Hb He Hb2 He2 Hpresent2.
  rewrite Hb in Hb0. injection Hb0 as <-.
  rewrite He in He0. injection He0 as <-.
  exact (Hagain req2 b2 Hb2 He2 Hpresent2).
Qed.

(** *** Token verification, exactly *)

Lemma startsWith_bearer (h : string) :
  startsWith h "Bearer " = true -> h = "Bearer " ++ substring_from 7 h.
Proof.
  unfold startsWith. intros H.
  repeat (destruct h as [ | ? h]; simpl in H; [discriminate H | ];
          match type of H with
          | (if ?d then _ else _) = true =>
              destruct d as [<- | ]; [ | discriminate H]
          end).
  unfold substring_from. simpl. rewrite Nat.sub_0_r, substring_all.
  reflexivity.
Qed.

(** X7.  [verifyToken] returns a payload exactly when the request has an
    [Authorization] header made of the seven characters [Bearer ]
    (capital B, one blank) followed by a token the library verifies under
    the configured secret at the current clock; the payload is then what
    the library decoded.  In every other case it returns [null]. *)
Theorem X7_verifyToken_accepts_exactly
        (L : Collaborators) (env : ProcessEnv) (req : Request) (w : World) :
  (forall decoded,
      Auth.verifyToken env req w = (inr (Some decoded), w)
      <-> exists token,
          bearer_request req token
          /\ jwt_verify token (JWT_SECRET env) (now w) = inr decoded)
  /\ (Auth.verifyToken env req w = (inr None, w)
      <-> ~ exists token decoded,
            bearer_request req token
            /\ jwt_verify token (JWT_SECRET env) (now w) = inr decoded).
Proof.
  assert (Hiff : forall decoded,
             Auth.verifyToken env req w = (inr (Some decoded), w)
             <-> exists token,
                 bearer_request req token
                 /\ jwt_verify token (JWT_SECRET env) (now w) = inr decoded).
  { intros decoded. split.
    - unfold Auth.verifyToken, try_catch, bind, Auth.jwt_verify_call,
        bearer_request.
      cbv zeta.
      destruct (headers_get "authorization" (req_headers req)) as [h | ];
        [ | discriminate].
      destruct (startsWith h "Bearer ") eqn:Hpre.
      + rewrite (startsWith_nonempty h Hpre). cbn [negb orb]. cbv beta iota.
        destruct (jwt_verify (substring_from 7 h) (JWT_SECRET env) (now w))
          as [err | d] eqn:Hv; [discriminate | ].
        intros H. injection H as <-.
        exists (substring_from 7 h). split; [ | exact Hv].
        f_equal. apply startsWith_bearer. exact Hpre.
      + rewrite orb_true_r. discriminate.
    - intros [token [Hreq Hv]]. apply (verifyToken_accepts env req w token).
      + exact Hreq.
      + exact Hv. }
  split; [exact Hiff | ].
  destruct (verifyToken_total env req w) as [[d | ] Hp].
  - split.
    + rewrite Hp. discriminate.
    + intros Hno. exfalso. apply Hno.
      destruct (proj1 (Hiff d) Hp) as [token Htoken]. exists token, d.
      exact Htoken.
  - split; [ | intros _; exact Hp].
    intros _ [token [d [Hreq Hv]]].
    pose proof (proj2 (Hiff d) (ex_intro _ token (conj Hreq Hv))) as Hsome.
    rewrite Hp in Hsome. discriminate Hsome.
Qed.

(** *** Input checks come before the database *)

Lemma safeParse_issues {L : Collaborators} (b : value) (errs : list value) :
  Zod.loginSchema_safeParse b = inl errs -> errs <> [].
Proof.
  intros H. destruct b; simpl in H;
    try (injection H as <-; discriminate).
  unfold Zod.parse_email, Zod.parse_password in H.
  destruct (assoc "email" fields) as [[ | | | s | | | ] | ];
    destruct (assoc "password" fields) as [[ | | | s' | | | ] | ];
    try destruct (is_email s);
    try destruct (1 <=? String.length s')%nat;
    try discriminate H;
    injection H as <-; discriminate.
Qed.

(** X8.  A request that fails a route's input check is answered 400 from
    the request alone: the database is not queried, so the answer is the
    same when the database is down, and the state is unchanged.  Signup
    refuses a body in which [email], [password] or [role] is missing or
    falsy (empty string, [0], [false], [null]); the second side of login
    refuses one in which [email] or [password] is; the first side one
    that its schema rejects, listing at least one issue. *)
Theorem X8_input_checks_before_database
        (L : Collaborators) (env : ProcessEnv) (req : Request) (w : World)
        (b : value) :
  req_body req = Some b ->
  (b <> VNull ->
   truthy (get b "email") = false \/ truthy (get b "password") = false
   \/ truthy (get b "role") = false ->
   Signup.POST req w = (inr missing_fields_response, w))
  /\ (b <> VNull ->
      truthy (get b "email") = false \/ truthy (get b "password") = false ->
      LoginTheirs.POST req w
      = (inr (NextResponse_json
                (VObj [("error", VStr "Missing email or password")]) 400), w))
  /\ (forall errs,
         Zod.loginSchema_safeParse b = inl errs ->
         errs <> []
         /\ LoginHead.POST env req w
            = (inr (NextResponse_json
                      (VObj [ ("success", VBool false);
                              ("message", VStr "Validation failed");
                              ("errors", VArr errs) ]) 400), w)).
Proof.
  intros Hb. repeat split.
  - intros Hnn Hmissing.
    unfold Signup.POST, try_catch, bind, request_json. rewrite Hb.
    unfold ret at 1. rewrite (destructure_ok b w Hnn).
    assert (Hguard : negb (truthy (get b "email"))
                     || negb (truthy (get b "password"))
                     || negb (truthy (get b "role")) = true).
    { destruct Hmissing as [-> | [-> | ->]]; cbn [negb orb];
        repeat rewrite orb_true_r; reflexivity. }
    rewrite Hguard. reflexivity.
  - intros Hnn Hmissing.
    unfold LoginTheirs.POST, try_catch, bind, request_json. rewrite Hb.
    unfold ret at 1. rewrite (destructure_ok b w Hnn).
    assert (Hguard : negb (truthy (get b "email"))
                     || negb (truthy (get b "password")) = true).
    { destruct Hmissing as [-> | ->]; cbn [negb orb];
        repeat rewrite orb_true_r; reflexivity. }
    rewrite Hguard. reflexivity.
  - exact (safeParse_issues b errs H).
  - unfold LoginHead.POST, try_catch, bind, request_json. rewrite Hb.
    unfold ret at 1. rewrite H. reflexivity.
Qed.

(** X9.  Bodies that are not objects.  A body that is not JSON at all is
    answered 500 by signup and by both sides of login.  The JSON value
    [null] is answered 500 by signup and by the second side of login
    (destructuring it throws) but 400 by the first side (its schema
    reports it).  Any other non-object (a number, a string, a boolean,
    an array) is answered 400 by all three, the state unchanged. *)
Theorem X9_bodies_that_are_not_objects
        (L : Collaborators) (env : ProcessEnv) (req : Request) (w : World) :
  (req_body req = None ->
   answers (Signup.POST req) w 500
   /\ answers (LoginHead.POST env req) w 500
   /\ answers (LoginTheirs.POST req) w 500)
  /\ (req_body req = Some VNull ->
      answers (Signup.POST req) w 500
      /\ answers (LoginHead.POST env req) w 400
      /\ answers (LoginTheirs.POST req) w 500)
  /\ (forall b,
         req_body req = Some b -> primitive_or_array b ->
         Signup.POST req w = (inr missing_fields_response, w)
         /\ answers (LoginHead.POST env req) w 400
         /\ LoginTheirs.POST req w
            = (inr (NextResponse_json
                      (VObj [("error", VStr "Missing email or password")])
                      400), w)).
Proof.
  unfold answers. repeat split.
  - unfold Signup.POST, try_catch, bind, request_json. rewrite H.
    eexists. eexists. split; reflexivity.
  - unfold LoginHead.POST, try_catch, bind, request_json. rewrite H.
    eexists. eexists. split; reflexivity.
  - unfold LoginTheirs.POST, try_catch, bind, request_json. rewrite H.
    eexists. eexists. split; reflexivity.
  - unfold Signup.POST, try_catch, bind, request_json. rewrite H.
    eexists. eexists. split; reflexivity.
  - unfold LoginHead.POST, try_catch, bind, request_json. rewrite H.
    eexists. eexists. split; reflexivity.
  - unfold LoginTheirs.POST, try_catch, bind, request_json. rewrite H.
    eexists. eexists. split; reflexivity.
  - unfold Signup.POST, try_catch, bind, request_json. rewrite H.
    destruct b; try contradiction; reflexivity.
  - unfold LoginHead.POST, try_catch, bind, request_json. rewrite H.
    destruct b; try contradiction; eexists; eexists; split; reflexivity.
  - unfold LoginTheirs.POST, try_catch, bind, request_json. rewrite H.
    destruct b; try contradiction; reflexivity.
Qed.

(** *** "Who am I" trusts the table, not the token *)

Lemma me_by_id {L : Collaborators} (env : ProcessEnv)
      (req : Request) (w : World) (token : string) (decoded : value)
      (i : string) :
  bearer_request req token ->
  jwt_verify token (JWT_SECRET env) (now w) = inr decoded ->
  get decoded "id" = Some (VStr i) ->
  Me.GET env req w
  = try_catch
      (user <- Prisma.findUnique_id_select (Some (VStr i)) ;;
       match user with
       | None => ret Me.not_found
       | Some user =>
           ret (NextResponse_json
                  (obj [("success", Some (VBool true)); ("user", Some user)])
                  200)
       end)
      (fun error =>
         console_error "Get user error:" error ;;;
         ret (NextResponse_json
                (obj [("success", Some (VBool false));
                      ("message", Some (VStr "Internal server error"))])
                500)) w.
Proof.
  intros Hreq Hv Hid.
  destruct (get_is_object _ _ _ Hid) as [fields [-> Hid']].
  unfold Me.GET, try_catch, bind at 1 2.
  rewrite (verifyToken_accepts env req w token _ Hreq Hv).
  cbn [truthy negb]. cbv beta iota. rewrite Hid. reflexivity.
Qed.

(** X10.  Of a verified token, "who am I" uses the [id] and nothing
    else.  Two requests whose tokens verify and carry the same [id] get
    the same answer in the same state, whatever [email], [role] or other
    claims the two tokens carry and whatever else the two requests
    contain: what is shown comes from the table. *)
Theorem X10_me_uses_only_the_id
        (L : Collaborators) (env : ProcessEnv) (req1 req2 : Request)
        (w : World) (token1 token2 : string) (decoded1 decoded2 : value)
        (i : string) :
  bearer_request req1 token1 ->
  bearer_request req2 token2 ->
  jwt_verify token1 (JWT_SECRET env) (now w) = inr decoded1 ->
  jwt_verify token2 (JWT_SECRET env) (now w) = inr decoded2 ->
  get decoded1 "id" = Some (VStr i) ->
  get decoded2 "id" = Some (VStr i) ->
  Me.GET env req1 w = Me.GET env req2 w.
Proof.
  intros Hr1 Hr2 Hv1 Hv2 Hi1 Hi2.
  rewrite (me_by_id env req1 w token1 decoded1 i Hr1 Hv1 Hi1).
  rewrite (me_by_id env req2 w token2 decoded2 i Hr2 Hv2 Hi2).
  reflexivity.
Qed.

(** X11.  Signup keeps the table's constraints: if ids and emails are
    unique before a signup request, they are unique after it, whatever
    the request and whether it was answered 201 or refused. *)
Theorem X11_signup_keeps_ids_and_emails_unique
        (L : Collaborators) (req : Request) (w : World) :
  wf_users (users w) -> wf_users (users (snd (Signup.POST req w))).
Proof. apply signup_preserves_wf. Qed.

(** X12.  The login handler printed in [docs/Authentication.md] tells an
    unknown email from a wrong password: the first is answered 404 "User
    not found", the second 401 "Invalid credentials". *)
Theorem X12_guide_login_reveals_unknown_email
        (L : Collaborators) (env : ProcessEnv) (error_json : Exn -> value)
        (req1 req2 : Request) (w : World) (e1 p1 e2 p2 : string) :
  login_request req1 e1 p1 -> login_request req2 e2 p2 ->
  fault w FindUniqueByEmail = None ->
  no_user_with_email w e1 ->
  wrong_password_for w e2 p2 ->
  exists r1 r2,
    AuthenticationMd.POST env error_json req1 w = (inr r1, w)
    /\ AuthenticationMd.POST env error_json req2 w = (inr r2, w)
    /\ status r1 = 404
    /\ get (body r1) "message" = Some (VStr "User not found")
    /\ status r2 = 401
    /\ get (body r2) "message" = Some (VStr "Invalid credentials").
Proof.
  intros Hr1 Hr2 Hfault Hnone Hwrong.
  destruct (authentication_md_login_distinguishes
              env error_json req1 req2 w e1 p1 e2 p2
              Hr1 Hr2 Hfault Hnone Hwrong) as [H1 [H2 _]].
  exists AuthenticationMd.user_not_found, AuthenticationMd.invalid_credentials.
  repeat split; assumption.
Qed.

(** *** The guide's protected route *)

Lemma split_nonempty (c : ascii) (s : string) : ProtectedRoute.split c s <> [].
Proof.
  destruct s as [ | a s]; simpl; [discriminate | ].
  destruct (Ascii.eqb a c); [discriminate | ].
  destruct (ProtectedRoute.split c s); discriminate.
Qed.

Lemma split_two_words (c : ascii) (a b : string) :
  ProtectedRoute.split c a = [a] ->
  ProtectedRoute.split c (a ++ String c b) = a :: ProtectedRoute.split c b.
Proof.
  induction a as [ | x a IH]; intros Ha.
  - simpl. rewrite Ascii.eqb_refl. reflexivity.
  - simpl in Ha. simpl. destruct (Ascii.eqb x c); [discriminate Ha | ].
    destruct (ProtectedRoute.split c a) as [ | y ys] eqn:Hs.
    + exfalso. exact (split_nonempty c a Hs).
    + injection Ha as -> ->. rewrite IH by reflexivity. reflexivity.
Qed.

(** X13.  The protected route of the guide takes the second
    blank-separated word of the [Authorization] header as the token and
    never looks at the first.  With no header, or a header of one word,
    it answers 401 "Token missing".  With two words, whatever the first
    one is ([Bearer] or anything else), it answers 200 with the decoded
    payload when the library verifies the second, and 403 "Invalid or
    expired token" when the library rejects it. *)
Theorem X13_guide_route_ignores_the_scheme
        (L : Collaborators) (env : ProcessEnv) (req : Request) (w : World) :
  (headers_get "authorization" (req_headers req) = None ->
   ProtectedRoute.GET env req w = (inr ProtectedRoute.token_missing, w))
  /\ (forall h,
         headers_get "authorization" (req_headers req) = Some h ->
         single_word h ->
         ProtectedRoute.GET env req w = (inr ProtectedRoute.token_missing, w))
  /\ (forall scheme token,
         headers_get "authorization" (req_headers req)
         = Some (scheme ++ " " ++ token) ->
         single_word scheme -> single_word token -> token <> "" ->
         (forall decoded,
             jwt_verify token (AuthenticationMd.JWT_SECRET env) (now w)
             = inr decoded ->
             ProtectedRoute.GET env req w
             = (inr (NextResponse_json
                       (VObj [ ("success", VBool true);
                               ("message", VStr "Protected data accessed");
                               ("user", decoded) ]) 200), w))
         /\ (forall err,
                jwt_verify token (AuthenticationMd.JWT_SECRET env) (now w)
                = inl err ->
                ProtectedRoute.GET env req w
                = (inr ProtectedRoute.invalid_token, w)))
  /\ status ProtectedRoute.token_missing = 401
  /\ status ProtectedRoute.invalid_token = 403.
Proof.
  split; [ | split; [ | split; [ | split; reflexivity]]].
  - intros H. unfold ProtectedRoute.GET, try_catch. cbv zeta.
    rewrite H. reflexivity.
  - intros h H Hword. unfold ProtectedRoute.GET, try_catch. cbv zeta.
    rewrite H. unfold single_word in Hword. rewrite Hword. reflexivity.
  - intros scheme token H Hscheme Htoken Hne.
    assert (Hsplit : ProtectedRoute.split " " (scheme ++ " " ++ token)
                     = [scheme; token]).
    { change (" " ++ token) with (String " " token).
      rewrite (split_two_words " " scheme token Hscheme).
      unfold single_word in Htoken. rewrite Htoken. reflexivity. }
    apply String.eqb_neq in Hne.
    split.
    + intros decoded Hv.
      unfold ProtectedRoute.GET, try_catch, bind,
        ProtectedRoute.jwt_verify_call.
      cbv zeta. rewrite H, Hsplit. cbn [nth_error]. rewrite Hne, Hv.
      reflexivity.
    + intros err Hv.
      unfold ProtectedRoute.GET, try_catch, bind,
        ProtectedRoute.jwt_verify_call.
      cbv zeta. rewrite H, Hsplit. cbn [nth_error]. rewrite Hne, Hv.
      reflexivity.
Qed.

(** *** The page guard *)

Lemma protected_not_public (p : string) :
  protected_path p = true ->
  startsWith p "/login" || (p == "/") = false.
Proof.
  unfold protected_path, startsWith. intros H.
  destruct p as [ | a p]; [discriminate H | ].
  cbn [String.prefix] in H |- *.
  destruct (ascii_dec "/" a) as [<- | ]; [ | discriminate H].
  destruct p as [ | b p]; [discriminate H | ].
  cbn [String.prefix] in H |- *.
  destruct (ascii_dec "l" b) as [<- | ]; [ | reflexivity].
  destruct (ascii_dec "d" "l"); [discriminate | ].
  destruct (ascii_dec "u" "l"); [discriminate | ].
  discriminate H.
Qed.

(** X14.  The page guard on a protected path (one that starts with
    [/dashboard] or [/users]): the request passes if and only if it has a
    non-empty [token] cookie that the library verifies; in every other
    case (no cookie, empty cookie, rejected token) it is redirected to
    [/login].  Nothing is thrown and the state is unchanged. *)
Theorem X14_guard_on_protected_paths
        (L : Collaborators) (env : ProcessEnv)
        (req : Middleware.NextRequest) (w : World) :
  protected_path (Middleware.pathname req) = true ->
  (Middleware.middleware env req w = (inr Middleware.Next, w)
   \/ Middleware.middleware env req w
      = (inr (Middleware.Redirect "/login"), w))
  /\ (Middleware.middleware env req w = (inr Middleware.Next, w)
      <-> exists token decoded,
          Middleware.cookies_get "token" (Middleware.cookies req)
          = Some token
          /\ token <> ""
          /\ jwt_verify token (AuthenticationMd.JWT_SECRET env) (now w)
             = inr decoded).
Proof.
  intros Hprot. pose proof (protected_not_public _ Hprot) as Hpub.
  unfold protected_path in Hprot.
  unfold Middleware.middleware. cbv zeta. rewrite Hpub, Hprot.
  destruct (Middleware.cookies_get "token" (Middleware.cookies req))
    as [token | ].
  - destruct (String.eqb_spec token "") as [-> | Hne].
    + split; [right; reflexivity | ]. split; [discriminate | ].
      intros [t [d [Ht [Hnt _]]]]. injection Ht as <-. contradiction.
    + unfold try_catch, bind, Middleware.jwt_verify_call.
      destruct (jwt_verify token (AuthenticationMd.JWT_SECRET env) (now w))
        as [err | d] eqn:Hv.
      * split; [right; reflexivity | ]. split; [discriminate | ].
        intros [t [d [Ht [_ Hd]]]]. injection Ht as <-.
        rewrite Hv in Hd. discriminate Hd.
      * split; [left; reflexivity | ]. split; [ | reflexivity].
        intros _. exists token, d. auto.
  - split; [right; reflexivity | ]. split; [discriminate | ].
    intros [t [d [Ht _]]]. discriminate Ht.
Qed.

(** X15.  The guard cannot loop.  Whenever it redirects, the target is
    [/login], and a request for the target passes the guard whatever
    cookies it carries; the same holds for [/] and for every path that
    starts with [/login], which pass without the cookies being read. *)
Theorem X15_guard_redirect_target_is_public
        (L : Collaborators) (env : ProcessEnv)
        (req : Middleware.NextRequest) (w : World) (target : string) :
  fst (Middleware.middleware env req w) = inr (Middleware.Redirect target) ->
  target = "/login"
  /\ forall cookies w',
      Middleware.middleware env (Middleware.mkNextRequest target cookies) w'
      = (inr Middleware.Next, w').
Proof.
  intros H.
  assert (Htarget : target = "/login").
  { unfold Middleware.middleware in H. cbv zeta in H.
    destruct (startsWith (Middleware.pathname req) "/login"
              || (Middleware.pathname req == "/"));
      [cbn in H; discriminate H | ].
    destruct (startsWith (Middleware.pathname req) "/dashboard"
              || startsWith (Middleware.pathname req) "/users");
      [ | cbn in H; discriminate H].
    destruct (Middleware.cookies_get "token" (Middleware.cookies req))
      as [token | ]; [ | cbn in H; injection H as <-; reflexivity].
    destruct (token == ""); [cbn in H; injection H as <-; reflexivity | ].
    unfold try_catch, bind, Middleware.jwt_verify_call in H.
    destruct (jwt_verify token (AuthenticationMd.JWT_SECRET env) (now w));
      cbn in H; [injection H as <-; reflexivity | discriminate H]. }
  split; [exact Htarget | ]. subst target. intros cookies w'. reflexivity.
Qed.

(** *** The guide's error handler *)

(** X16.  [handleError] reads [error.message] whatever the mode.  For a
    caught [null] or [undefined] that read throws: the handler itself
    fails with a [TypeError], answers nothing and logs nothing, in
    production as in development.  For every other caught value it
    answers 500 and writes one line to the log.  In production the body
    is then the fixed pair [success: false] and the safe message,
    whatever was caught, and the logged entry carries the caught message
    with the stack replaced by [REDACTED].  In every other mode, an
    unset [NODE_ENV] included, the body carries the caught stack, and
    the caught message (or "Unknown error" when that is missing or
    falsy). *)
Theorem X16_handleError_by_mode
        (env : ProcessEnv) (JSON_stringify : value -> string)
        (context : string) (w : World) :
  ErrorHandler.handleError env JSON_stringify ErrorHandler.ThrownNull
                           context w
  = (inl "TypeError: Cannot read properties of null (reading 'message')", w)
  /\ ErrorHandler.handleError env JSON_stringify
                              ErrorHandler.ThrownUndefined context w
     = (inl "TypeError: Cannot read properties of undefined (reading 'message')",
        w)
  /\ forall error : ErrorHandler.Caught,
      exists r w',
        ErrorHandler.handleError env JSON_stringify
                                 (ErrorHandler.ThrownValue error) context w
        = (inr r, w')
        /\ status r = 500
        /\ users w' = users w
        /\ (exists line, log w' = (log w ++ [line])%list)
        /\ (env_NODE_ENV env = Some "production" ->
            body r = VObj [ ("success", VBool false);
                            ("message", VStr ErrorHandler.safe_message) ]
            /\ log w'
               = (log w
                    ++ [JSON_stringify
                          (ErrorHandler.log_entry
                             "error" ("Error in " ++ context)
                             (Some (obj [("message",
                                          ErrorHandler.message error);
                                         ("stack",
                                          Some (VStr "REDACTED"))]))
                             (now w))])%list)
        /\ (env_NODE_ENV env <> Some "production" ->
            get (body r) "stack" = ErrorHandler.stack error
            /\ get (body r) "message"
               = Some (if truthy (ErrorHandler.message error)
                       then match ErrorHandler.message error with
                            | Some m => m
                            | None => VStr "Unknown error"
                            end
                       else VStr "Unknown error")).
Proof.
  split; [ | split].
  - unfold ErrorHandler.handleError, ErrorHandler.isProd, bind.
    destruct (env_NODE_ENV env) as [mode | ];
      [destruct (mode == "production") | ]; reflexivity.
  - unfold ErrorHandler.handleError, ErrorHandler.isProd, bind.
    destruct (env_NODE_ENV env) as [mode | ];
      [destruct (mode == "production") | ]; reflexivity.
  - intros error.
    unfold ErrorHandler.handleError, ErrorHandler.isProd.
    destruct (env_NODE_ENV env) as [mode | ].
    + destruct (String.eqb_spec mode "production") as [-> | Hne].
      * eexists. eexists. split; [reflexivity | ].
        split; [reflexivity | ]. split; [reflexivity | ].
        split; [eexists; reflexivity | ]. split.
        -- intros _. split; reflexivity.
        -- intros H. contradiction H. reflexivity.
      * eexists. eexists. split; [reflexivity | ].
        split; [reflexivity | ]. split; [reflexivity | ].
        split; [eexists; reflexivity | ]. split.
        -- intros H. injection H as H. contradiction.
        -- intros _. cbn. unfold ErrorHandler.message_or_unknown.
           destruct (ErrorHandler.stack error),
             (ErrorHandler.message error);
             split; try reflexivity; destruct (truthy _); reflexivity.
    + eexists. eexists. split; [reflexivity | ].
      split; [reflexivity | ]. split; [reflexivity | ].
      split; [eexists; reflexivity | ]. split; [discriminate | ].
      intros _. cbn. unfold ErrorHandler.message_or_unknown.
      destruct (ErrorHandler.stack error), (ErrorHandler.message error);
        split; try reflexivity; destruct (truthy _); reflexivity.
Qed.

(* ================================================================== *)
(** ** The further properties at concrete inputs *)
(* ================================================================== *)

(** Alice's signup with every optional field, on an empty table. *)
Lemma alice_full_signs_up :
  exists r1 w1,
    Signup.POST (L := Reference.collaborators)
      (Reference.post Reference.alice_full) Reference.w0 = (inr r1, w1)
    /\ status r1 = 201
    /\ get (body r1) "fullName" = Some (VStr "Alice A.")
    /\ get (body r1) "dateOfBirth" = Some (VDate 946684800000).
Proof. eexists. eexists. vm_compute. repeat split. Defined.

(** X5 at a concrete input: Alice signs up with her full name and date of
    birth, then logs in. *)
Lemma X5_witness :
  exists r1 w1 r2 token,
    Signup.POST (L := Reference.collaborators)
      (Reference.post Reference.alice_full) Reference.w0 = (inr r1, w1)
    /\ status r1 = 201
    /\ LoginHead.POST (L := Reference.collaborators) Reference.env
         (Reference.post Reference.alice) w1 = (inr r2, w1)
    /\ status r2 = 200
    /\ get (body r2) "token" = Some (VStr token)
    /\ get (body r2) "user" = Some (body r1).
Proof.
  destruct alice_full_signs_up as [r1 [w1 [Hsignup [Hst _]]]].
  destruct (X5_signup_then_login
              Reference.collaborators Reference.env
              (Reference.post Reference.alice_full) Reference.w0 r1 w1
              Reference.alice_full "a@b.com" "secret123"
              Hsignup Hst eq_refl eq_refl eq_refl
              (conj (NoDup_nil string) (NoDup_nil string))
              eq_refl eq_refl
              (Reference.post Reference.alice))
    as [r2 [token [Hlogin [Hs2 [Htoken Huser]]]]].
  { exists Reference.alice. repeat split. }
  exists r1, w1, r2, token. repeat split; assumption.
Defined.

(** X6 at a concrete input: Alice signs up twice with her full name and
    date of birth. *)
Lemma X6_witness :
  exists r1 w1,
    Signup.POST (L := Reference.collaborators)
      (Reference.post Reference.alice_full) Reference.w0 = (inr r1, w1)
    /\ status r1 = 201
    /\ Signup.POST (L := Reference.collaborators)
         (Reference.post Reference.alice_full) w1
       = (inr conflict_response, w1).
Proof.
  destruct alice_full_signs_up as [r1 [w1 [Hsignup [Hst _]]]].
  destruct (X6_signup_twice
              Reference.collaborators
              (Reference.post Reference.alice_full) Reference.w0 r1 w1
              Hsignup Hst)
    as [_ [Hagain _]].
  exists r1, w1. repeat split; assumption.
Defined.

(** X8 at a concrete input: an empty password, while the database is
    down. *)
Lemma X8_witness :
  Signup.POST (L := Reference.collaborators)
    (Reference.post (VObj [ ("email", VStr "a@b.com");
                            ("password", VStr "");
                            ("role", VStr "LEARNER") ]))
    Reference.w1_down
  = (inr missing_fields_response, Reference.w1_down).
Proof.
  apply (proj1 (X8_input_checks_before_database
                  Reference.collaborators Reference.env
                  (Reference.post (VObj [ ("email", VStr "a@b.com");
                                          ("password", VStr "");
                                          ("role", VStr "LEARNER") ]))
                  Reference.w1_down _ eq_refl)).
  - discriminate.
  - right. left. reflexivity.
Defined.

(** X10 at a concrete input: two tokens for Alice's id, one of them with
    another email and role. *)
Lemma X10_witness :
  Me.GET (L := Reference.collaborators) Reference.env
    (Reference.bearer Reference.alice_token) Reference.w1
  = Me.GET (L := Reference.collaborators) Reference.env
      (Reference.bearer Reference.alice_token_other_claims) Reference.w1.
Proof.
  apply (X10_me_uses_only_the_id
           Reference.collaborators Reference.env
           (Reference.bearer Reference.alice_token)
           (Reference.bearer Reference.alice_token_other_claims)
           Reference.w1
           Reference.alice_token Reference.alice_token_other_claims
           (VObj [ ("id", VStr "user-1"); ("email", VStr "a@b.com");
                   ("role", VStr "LEARNER");
                   ("iat", VNum 1000); ("exp", VNum 605800) ])
           (VObj [ ("id", VStr "user-1"); ("email", VStr "someone@else.org");
                   ("role", VStr "TEACHER");
                   ("iat", VNum 1000); ("exp", VNum 605800) ])
           "user-1").
  - reflexivity.
  - reflexivity.
  - vm_compute. reflexivity.
  - vm_compute. reflexivity.
  - reflexivity.
  - reflexivity.
Defined.

(** X11 at a concrete input: the table with Alice, and her signup sent
    again. *)
Lemma X11_witness :
  wf_users
    (users (snd (Signup.POST (L := Reference.collaborators)
                   (Reference.post Reference.alice) Reference.w1))).
Proof.
  apply (X11_signup_keeps_ids_and_emails_unique
           Reference.collaborators (Reference.post Reference.alice)
           Reference.w1).
  exact Runs.w1_wf.
Defined.

(** X12 at a concrete input: an unknown email and a wrong password
    against the table with Alice. *)
Lemma X12_witness :
  exists r1 r2,
    Reference.guide_login
      (Reference.post (credentials "nobody@b.com" "secret123")) Reference.w1
    = (inr r1, Reference.w1)
    /\ Reference.guide_login
         (Reference.post (credentials "a@b.com" "wrong")) Reference.w1
       = (inr r2, Reference.w1)
    /\ status r1 = 404
    /\ get (body r1) "message" = Some (VStr "User not found")
    /\ status r2 = 401
    /\ get (body r2) "message" = Some (VStr "Invalid credentials").
Proof.
  apply (X12_guide_login_reveals_unknown_email
           Reference.collaborators Reference.env VStr
           (Reference.post (credentials "nobody@b.com" "secret123"))
           (Reference.post (credentials "a@b.com" "wrong"))
           Reference.w1 "nobody@b.com" "secret123" "a@b.com" "wrong").
  - eexists. repeat split.
  - eexists. repeat split.
  - reflexivity.
  - intros u [<- | []]. discriminate.
  - split.
    + exists Reference.alice_row. split; [left | ]; reflexivity.
    + intros u [<- | []] _. reflexivity.
Defined.

(** X14 at a concrete input: a dashboard page requested with a valid
    token cookie. *)
Lemma X14_witness :
  Reference.guard Reference.dashboard_with_token Reference.w1
  = (inr Middleware.Next, Reference.w1).
Proof.
  apply (proj2 (proj2 (X14_guard_on_protected_paths
                         Reference.collaborators Reference.env
                         Reference.dashboard_with_token Reference.w1
                         eq_refl))).
  exists Reference.guide_token.
  exists (VObj [ ("id", VStr "user-1"); ("email", VStr "a@b.com");
                 ("role", VStr "LEARNER");
                 ("iat", VNum 1000); ("exp", VNum 605800) ]).
  split; [reflexivity | ]. split; [discriminate | ].
  vm_compute. reflexivity.
Defined.

(** X15 at a concrete input: a dashboard page requested without a
    cookie. *)
Lemma X15_witness :
  Middleware.middleware (L := Reference.collaborators) Reference.env
    (Middleware.mkNextRequest "/login" []) Reference.w1
  = (inr Middleware.Next, Reference.w1).
Proof.
  apply (proj2 (X15_guard_redirect_target_is_public
                  Reference.collaborators Reference.env
                  Reference.dashboard_without_token Reference.w1
                  "/login" eq_refl)).
Defined.

(** X17.  An [email] that is truthy but not a string (a number, [true],
    an array, an object) passes the presence checks of signup and of the
    second side of login, which test truthiness only; the user lookup
    then rejects its argument, so both answer 500 and the table is
    unchanged.  The first side of login refuses the same body with 400:
    its schema requires a string. *)
Theorem X17_email_that_is_not_a_string
        (L : Collaborators) (env : ProcessEnv) (req : Request) (w : World)
        (b v : value) :
  req_body req = Some b ->
  get b "email" = Some v ->
  (forall s, v <> VStr s) ->
  signup_fields_present b ->
  (exists r w', Signup.POST req w = (inr r, w')
                /\ status r = 500 /\ users w' = users w)
  /\ (exists r w', LoginTheirs.POST req w = (inr r, w')
                   /\ status r = 500 /\ users w' = users w)
  /\ answers (LoginHead.POST env req) w 400.
Proof.
  intros Hb He Hns Hpresent.
  pose proof Hpresent as [Hte [Htp _]].
  assert (Hnn : b <> VNull) by (intros ->; discriminate He).
  split; [ | split].
  - rewrite (signup_reaches_lookup req w b Hb Hpresent).
    unfold try_catch, bind, Prisma.findUnique_email. rewrite He.
    destruct v; try (eexists; eexists; repeat split; reflexivity).
    exfalso. exact (Hns s eq_refl).
  - unfold LoginTheirs.POST, try_catch, bind, request_json. rewrite Hb.
    unfold ret at 1. rewrite (destructure_ok b w Hnn), Hte, Htp.
    cbn [negb orb]. cbv beta iota.
    unfold Prisma.findUnique_email. rewrite He.
    destruct v; try (eexists; eexists; repeat split; reflexivity).
    exfalso. exact (Hns s eq_refl).
  - destruct (get_is_object _ _ _ He) as [fields [-> He']].
    unfold answers, LoginHead.POST, try_catch, bind, request_json.
    rewrite Hb. unfold ret at 1, Zod.loginSchema_safeParse.
    rewrite He'. unfold Zod.parse_email.
    destruct v; try (destruct (Zod.parse_password (assoc "password" fields));
                     eexists; eexists; split; reflexivity).
    exfalso. exact (Hns s eq_refl).
Qed.

(** X17 at a concrete input: a signup whose email is the number 5. *)
Lemma X17_witness :
  exists r w',
    Signup.POST (L := Reference.collaborators)
      (Reference.post (VObj [ ("email", VNum 5);
                              ("password", VStr "secret123");
                              ("role", VStr "LEARNER") ]))
      Reference.w1 = (inr r, w')
    /\ status r = 500 /\ users w' = users Reference.w1.
Proof.
  apply (proj1 (X17_email_that_is_not_a_string
                  Reference.collaborators Reference.env
                  (Reference.post (VObj [ ("email", VNum 5);
                                          ("password", VStr "secret123");
                                          ("role", VStr "LEARNER") ]))
                  Reference.w1 _ (VNum 5) eq_refl eq_refl
                  (fun s H => eq_ind (VNum 5)
                                     (fun x => match x with
                                               | VNum _ => True
                                               | _ => False
                                               end) I (VStr s) H)
                  (conj eq_refl (conj eq_refl eq_refl)))).
Defined.
